(** * SIDCO wildfire scraper: the two HTML parsers of [sidco_scraper.py]

    A shallow embedding of [parsear_tabla_incendios] (the listing parser) and
    [parsear_ficha_incendio] (the detail parser), together with the parts of
    the Python runtime and of BeautifulSoup they call, and the properties of
    the specification proved about them.

    The embedding starts from the tree BeautifulSoup builds from the page
    ([BeautifulSoup(html, "lxml")]); every later step of the two functions
    (searches, text extraction, the regular expression, [float], [strptime],
    the loops and their exceptions) is a definition below.

    - A [str] is a list of code points; a [float] is a binary64 number and
      [float(str)] rounds to the nearest one.
    - An exception is a [Raise] of the result type; [for] loops stop at the
      first one, [try ... except ValueError] catches the [ValueError]s.
    - [filas] is a list of records with the thirteen keys of the
      dictionaries; the function is followed up to the list the data frame
      is built from.  [datos] is a finite map from keys to values.
    - The "text" a search by [string=] looks at is the [.string] of the tag;
      the text of a cell is its [get_text(strip=True)].
    - [scrapear_incendios_y_fichas] asks the browser and [print] through a
      history of calls that the outside answers, with any exception it
      likes; its data frame is the list of its rows, a row a finite map
      from the names of the columns to cells, and what pandas reads back
      for a [None] of [url_ficha] ([None] or [nan]) is the outside's to
      say.  Of [main], the cleaning of the names of the columns. *)

From Stdlib Require Import ZArith NArith QArith List Ascii String Lia.
From Stdlib Require Import Floats.SpecFloat.
From Stdlib Require DecimalString.
From stdpp Require Import base option list gmap.

Set Default Proof Using "Type".

(** ** Python strings *)

(** A Python [str] is a sequence of Unicode code points. *)
Definition char : Set := N.
Bind Scope N_scope with char.
Definition pystr : Set := list char.

(** String literals of the source that are plain ASCII are written with
    [lit]; the few accented letters are given by their code point. *)
Definition lit (s : string) : pystr := map N_of_ascii (list_ascii_of_string s).

Definition o_acute : char := 243%N.   (* U+00F3 *)
Definition a_acute : char := 225%N.   (* U+00E1 *)
Definition i_acute : char := 237%N.   (* U+00ED *)

Module Str.

Definition eqb (s t : pystr) : bool := bool_decide (s = t).

Definition in_range (lo hi c : char) : bool := ((lo <=? c) && (c <=? hi))%N.

(** [str.isspace] for one character, which is also what [\s] matches in a
    [str] pattern and what [str.strip()] removes. *)
Definition isspace (c : char) : bool :=
  (in_range 9 13 c || in_range 28 32 c || (c =? 133) || (c =? 160)
   || (c =? 5760) || in_range 8192 8202 c || (c =? 8232) || (c =? 8233)
   || (c =? 8239) || (c =? 8287) || (c =? 12288))%N.

Fixpoint dropwhile (p : char -> bool) (s : pystr) : pystr :=
  match s with
  | c :: s' => if p c then dropwhile p s' else s
  | [] => []
  end.

Definition lstrip (s : pystr) : pystr := dropwhile isspace s.
Definition rstrip (s : pystr) : pystr := rev (dropwhile isspace (rev s)).

(** [s.strip()] *)
Definition strip (s : pystr) : pystr := rstrip (lstrip s).

(** [s.startswith(pre)] *)
Fixpoint startswith (pre s : pystr) : bool :=
  match pre, s with
  | [], _ => true
  | p :: pre', c :: s' => (p =? c)%N && startswith pre' s'
  | _ :: _, [] => false
  end.

(** [sub in s] *)
Fixpoint contains (sub s : pystr) : bool :=
  startswith sub s ||
  match s with
  | [] => false
  | _ :: s' => contains sub s'
  end.

(** [s.replace(old, new)] for a non-empty [old]: occurrences are replaced
    from the left and do not overlap; [skip] counts the characters of an
    occurrence still to be dropped. *)
Fixpoint replace_from (old new s : pystr) (skip : nat) : pystr :=
  match s with
  | [] => []
  | c :: s' =>
      match skip with
      | S k => replace_from old new s' k
      | O =>
          if startswith old s
          then new ++ replace_from old new s' (length old - 1)
          else c :: replace_from old new s' 0
      end
  end.

Definition replace (old new s : pystr) : pystr := replace_from old new s 0.

(** [sep.join(parts)] *)
Fixpoint join (sep : pystr) (parts : list pystr) : pystr :=
  match parts with
  | [] => []
  | [p] => p
  | p :: rest => p ++ sep ++ join sep rest
  end.

End Str.

(** ** Exceptions *)

(** The exceptions that can arise in the two parsers.  [ValueError] carries
    the message of a [raise ValueError(...)] of the source.  The others come
    from the runtime: the [ValueError] of [float(arg)] on a string that is
    not a number, the [ValueError] of [datetime.strptime(data, ...)] on a
    string that is not a date, the [AttributeError] of an attribute access
    on [None], the [IndexError] of a list index out of range, and the
    [TypeError] of [float(None)]. *)
Inductive exn : Type :=
| ValueError (msg : pystr)
| FloatValueError (arg : pystr)
| TimeValueError (data : pystr)
| NoneAttributeError (attr : pystr)
| IndexError
| TypeError.

(** What [except ValueError] catches. *)
Definition is_ValueError (e : exn) : bool :=
  match e with
  | ValueError _ | FloatValueError _ | TimeValueError _ => true
  | NoneAttributeError _ | IndexError | TypeError => false
  end.


Inductive result (A : Type) : Type :=
| Ok (a : A)
| Raise (e : exn).
Arguments Ok {A} a.
Arguments Raise {A} e.

Definition bind {A B} (r : result A) (k : A -> result B) : result B :=
  match r with
  | Ok a => k a
  | Raise e => Raise e
  end.

Notation "'let!' x ':=' c 'in' k" := (bind c (fun x => k))
  (at level 10, x name, c at level 100, k at level 200).

(** [l[i]] *)
Definition item {A} (l : list A) (i : nat) : result A :=
  match l !! i with
  | Some x => Ok x
  | None => Raise IndexError
  end.

(** Whether a computation ends without an exception. *)
Definition sin_error {A} (r : result A) : bool :=
  match r with
  | Ok _ => true
  | Raise _ => false
  end.

(** ** Unicode character data *)

(** [float] and [strptime] read decimal digits of any script.  The table of
    the interpreter's Unicode database ([Py_UNICODE_TODECIMAL]) is not part
    of the program: the parsers are defined over any table. *)
Class UnicodeData : Type := { todecimal : char -> option N }.

(** What every version of the table guarantees: on ASCII the decimal digits
    are exactly ['0'..'9']. *)
Definition ascii_digits (U : UnicodeData) : Prop :=
  forall c : char, (c < 128)%N ->
    todecimal c = if Str.in_range 48 57 c then Some (c - 48)%N else None.

(** ** [float(str)] *)

Module Float.

(** A Python [float] is an IEEE 754 binary64 number. *)
Definition float : Type := spec_float.
Definition prec : Z := 53.
Definition emax : Z := 1024.

(** The binary64 number nearest to [(-1)^neg * m * 10^e] (ties to even,
    overflow to infinity), as [PyOS_string_to_double] computes it. *)
Definition of_decimal (neg : bool) (m : N) (e : Z) : float :=
  match m with
  | N0 => S754_zero neg
  | Npos p =>
      let num := Z.to_pos (Zpos p * 10 ^ Z.max e 0) in
      let den := Z.to_pos (10 ^ Z.max (- e) 0) in
      SFdiv prec emax (S754_finite neg num 0) (S754_finite false den 0)
  end.

Definition isdigit (c : char) : bool := Str.in_range 48 57 c.

(** [Py_ISSPACE]: the six ASCII blanks. *)
Definition c_isspace (c : char) : bool := Str.in_range 9 13 c || (c =? 32)%N.

Definition c_strip (s : pystr) : pystr :=
  rev (Str.dropwhile c_isspace (rev (Str.dropwhile c_isspace s))).

(** [_PyUnicode_TransformDecimalAndSpaceToASCII]: an ASCII string is left
    as it is; otherwise blanks of any script become [' '], decimal digits
    of any script become ASCII digits, and the string is cut after a ['?']
    at the first other character above ASCII. *)
Fixpoint transform_from `{UnicodeData} (s : pystr) : pystr :=
  match s with
  | [] => []
  | c :: s' =>
      if (c <? 127)%N then c :: transform_from s'
      else if Str.isspace c then 32%N :: transform_from s'
      else match todecimal c with
           | Some d => (48 + d)%N :: transform_from s'
           | None => [63%N]
           end
  end.

Definition transform `{UnicodeData} (s : pystr) : pystr :=
  if forallb (fun c => (c <? 128)%N) s then s else transform_from s.

(** [_Py_string_to_number_with_underscores]: an underscore is allowed only
    between two digits; the string is returned without its underscores.
    [prev] is the previous character (NUL at the start).  A NUL ends a C
    string, so a string holding one is never a number. *)
Fixpoint underscores_from (prev : char) (s : pystr) : option pystr :=
  match s with
  | [] => if (prev =? 95)%N then None else Some []
  | c :: s' =>
      if (c =? 0)%N then None
      else if (c =? 95)%N
      then (if isdigit prev then underscores_from c s' else None)
      else if (prev =? 95)%N && negb (isdigit c) then None
      else cons c <$> underscores_from c s'
  end.

Definition without_underscores (s : pystr) : option pystr :=
  if existsb (fun c => (c =? 95)%N) s then underscores_from 0%N s else Some s.

Definition tolower_ascii (c : char) : char :=
  if Str.in_range 65 90 c then (c + 32)%N else c.

(** [_Py_parse_inf_or_nan], once the sign is read: the whole of what is
    left has to be one of the three words, in any case. *)
Definition inf_or_nan (neg : bool) (s : pystr) : option float :=
  let w := map tolower_ascii s in
  if Str.eqb w (lit "inf") || Str.eqb w (lit "infinity") then Some (S754_infinity neg)
  else if Str.eqb w (lit "nan") then Some S754_nan
  else None.

(** The run of ASCII digits a string starts with, and what follows it. *)
Fixpoint span_digits (s : pystr) : pystr * pystr :=
  match s with
  | c :: s' =>
      if isdigit c then let '(ds, r) := span_digits s' in (c :: ds, r)
      else ([], s)
  | [] => ([], [])
  end.

(** The number a run of ASCII digits denotes. *)
Definition digits_value (ds : pystr) : N :=
  fold_left (fun acc c => (10 * acc + (c - 48))%N) ds 0%N.

Definition read_sign (s : pystr) : bool * pystr :=
  match s with
  | c :: s' => if (c =? 45)%N then (true, s')
               else if (c =? 43)%N then (false, s')
               else (false, s)
  | [] => (false, [])
  end.

(** The exponent part: nothing, or [e]/[E], an optional sign and at least
    one digit, up to the end of the string. *)
Definition read_exponent (s : pystr) : option Z :=
  match s with
  | [] => Some 0%Z
  | c :: s' =>
      if (c =? 101)%N || (c =? 69)%N then
        let '(neg, s'') := read_sign s' in
        match span_digits s'' with
        | ((_ :: _) as ds, []) =>
            let v := Z.of_N (digits_value ds) in
            Some (if neg then (- v)%Z else v)
        | _ => None
        end
      else None
  end.

(** [_Py_dg_strtod] on the whole of [s], once the sign is read: digits
    with an optional point, at least one digit in all, then the exponent
    part. *)
Definition decimal_number (neg : bool) (s : pystr) : option float :=
  let '(ip, r) := span_digits s in
  let '(fp, r') :=
    match r with
    | c :: r0 => if (c =? 46)%N then span_digits r0 else ([], r)
    | [] => ([], [])
    end in
  match ip ++ fp with
  | [] => None
  | m => e ← read_exponent r';
         Some (of_decimal neg (digits_value m) (e - Z.of_nat (length fp)))
  end.

(** [PyOS_string_to_double], which has to use up the whole string. *)
Definition string_to_double (s : pystr) : option float :=
  let '(neg, r) := read_sign s in
  match inf_or_nan neg r with
  | Some f => Some f
  | None => decimal_number neg r
  end.

(** [float(s)] for a [str]. *)
Definition float_ `{UnicodeData} (s : pystr) : result float :=
  match without_underscores (transform s) ≫= (fun t => string_to_double (c_strip t)) with
  | Some f => Ok f
  | None => Raise (FloatValueError s)
  end.


End Float.

(** The table of the Unicode Character Database 14.0, the one of
    CPython 3.11: the decimal digits come in runs of ten, ['0'..'9'] and
    sixty-five more, given here by their first character. *)
Definition decimal_runs : list N :=
  [ 1632; 1776; 1984; 2406; 2534; 2662; 2790; 2918; 3046; 3174;
     3302; 3430; 3558; 3664; 3792; 3872; 4160; 4240; 6112; 6160;
     6470; 6608; 6784; 6800; 6992; 7088; 7232; 7248; 42528; 43216;
     43264; 43472; 43504; 43600; 44016; 65296; 66720; 68912; 69734; 69872;
     69942; 70096; 70384; 70736; 70864; 71248; 71360; 71472; 71904; 72016;
     72784; 73040; 73120; 92768; 92864; 93008; 120782; 120792; 120802; 120812;
     120822; 123200; 123632; 125264; 130032 ]%N.

Definition ucd_todecimal (c : char) : option N :=
  if Str.in_range 48 57 c then Some (c - 48)%N
  else (fun z => c - z)%N <$> List.find (fun z => Str.in_range z (z + 9) c) decimal_runs.

Definition unicode_14 : UnicodeData := {| todecimal := ucd_todecimal |}.

(** ** Regular expressions *)

(** The fragment of [re] the program needs, directly or through
    [strptime]: character sets, sequence, ordered alternative, the greedy
    star of a character set, and capture groups.  Matching backtracks as
    [re] does: a star first takes all it can, an alternative first tries its
    left branch, and the first way that lets the rest succeed is taken. *)
Module Re.

Inductive regex : Type :=
| Eps
| Chr (p : char -> bool)
| Seq (r1 r2 : regex)
| Alt (r1 r2 : regex)
| Star (p : char -> bool)
| Group (i : nat) (r : regex).

Definition Plus (p : char -> bool) : regex := Seq (Chr p) (Star p).

Definition exactly (c : char) : char -> bool := fun x => (x =? c)%N.

(** A literal text. *)
Fixpoint Lit (s : pystr) : regex :=
  match s with
  | [] => Eps
  | c :: s' => Seq (Chr (exactly c)) (Lit s')
  end.

(** [r1|r2|...] and [r1r2...] *)
Fixpoint Alts (rs : list regex) : regex :=
  match rs with
  | [] => Chr (fun _ => false)
  | [r] => r
  | r :: rs' => Alt r (Alts rs')
  end.

Fixpoint Seqs (rs : list regex) : regex :=
  match rs with
  | [] => Eps
  | [r] => r
  | r :: rs' => Seq r (Seqs rs')
  end.

(** The text of each group that took part in the match, last set first. *)
Definition groups : Type := list (nat * pystr).

Definition group (i : nat) (g : groups) : option pystr :=
  snd <$> find (fun '(j, _) => Nat.eqb j i) g.

Section Run.
Context {R : Type}.

Fixpoint star (p : char -> bool) (s : pystr) (g : groups)
         (k : pystr -> groups -> option R) : option R :=
  match s with
  | c :: s' =>
      if p c then
        match star p s' g k with
        | Some r => Some r
        | None => k s g
        end
      else k s g
  | [] => k [] g
  end.

(** [run r s g k]: match [r] at the start of [s], then hand what is left
    of [s] and the groups to [k]. *)
Fixpoint run (r : regex) (s : pystr) (g : groups)
         (k : pystr -> groups -> option R) : option R :=
  match r with
  | Eps => k s g
  | Chr p =>
      match s with
      | c :: s' => if p c then k s' g else None
      | [] => None
      end
  | Seq r1 r2 => run r1 s g (fun s' g' => run r2 s' g' k)
  | Alt r1 r2 =>
      match run r1 s g k with
      | Some x => Some x
      | None => run r2 s g k
      end
  | Star p => star p s g k
  | Group i r0 =>
      run r0 s g (fun s' g' => k s' ((i, take (length s - length s') s) :: g'))
  end.
End Run.

(** [pattern.match(s)]: the groups and the unread rest of [s]. *)
Definition match_ (r : regex) (s : pystr) : option (groups * pystr) :=
  run r s [] (fun rest g => Some (g, rest)).

(** [re.search(pattern, s)]: the match at the leftmost position that has
    one. *)
Fixpoint search (r : regex) (s : pystr) : option groups :=
  match match_ r s with
  | Some (g, _) => Some g
  | None =>
      match s with
      | [] => None
      | _ :: s' => search r s'
      end
  end.

End Re.

(** ** [datetime.strptime] *)

Module Datetime.

(** A [datetime] as [strptime] builds it from this format: seconds and
    microseconds are zero and there is no time zone. *)
Record datetime : Set := mk_datetime {
  year : Z; month : Z; day : Z; hour : Z; minute : Z
}.

Definition is_leap (y : Z) : bool :=
  ((y mod 4 =? 0) && (negb (y mod 100 =? 0) || (y mod 400 =? 0)))%Z.

Definition days_in_month (y m : Z) : Z :=
  if (m =? 2)%Z then (if is_leap y then 29 else 28)%Z
  else if ((m =? 4) || (m =? 6) || (m =? 9) || (m =? 11))%Z then 30%Z
  else 31%Z.

(** The program never calls [setlocale], so [%b] reads the month
    abbreviations of the C locale, which [_strptime] keeps in lower
    case. *)
Definition a_month : list pystr :=
  map lit ["jan"; "feb"; "mar"; "apr"; "may"; "jun";
           "jul"; "aug"; "sep"; "oct"; "nov"; "dec"]%string.

(** A lower-case ASCII letter of the pattern under [re.IGNORECASE]: the
    letter, its capital and, for [s], the long s (U+017F) that [re] folds
    to it.  None of the other letters of [a_month] has a further
    equivalent. *)
Definition ignorecase (c : char) : char -> bool :=
  fun x => ((x =? c) || (x =? c - 32) || ((c =? 115) && (x =? 383)))%N.

Fixpoint LitI (s : pystr) : Re.regex :=
  match s with
  | [] => Re.Eps
  | c :: s' => Re.Seq (Re.Chr (ignorecase c)) (LitI s')
  end.

(** [str.lower] on what [LitI] can match. *)
Definition lower (s : pystr) : pystr := map Float.tolower_ascii s.

Fixpoint index_from (i : Z) (x : pystr) (l : list pystr) : option Z :=
  match l with
  | [] => None
  | y :: l' => if Str.eqb x y then Some i else index_from (i + 1)%Z x l'
  end.

Section Strptime.
Context `{UnicodeData}.

(** [\d] in a [str] pattern: a decimal digit of any script. *)
Definition d (c : char) : bool := bool_decide (is_Some (todecimal c)).

Definition range (lo hi : ascii) (c : char) : bool :=
  Str.in_range (N_of_ascii lo) (N_of_ascii hi) c.
Definition one (a : ascii) : Re.regex := Re.Chr (Re.exactly (N_of_ascii a)).

Local Open Scope char_scope.

(** [3[0-1]|[1-2]\d|0[1-9]|[1-9]| [1-9]] *)
Definition re_d : Re.regex :=
  Re.Alts [ Re.Seqs [one "3"; Re.Chr (range "0" "1")];
         Re.Seqs [Re.Chr (range "1" "2"); Re.Chr d];
         Re.Seqs [one "0"; Re.Chr (range "1" "9")];
         Re.Chr (range "1" "9");
         Re.Seqs [one " "; Re.Chr (range "1" "9")] ].

(** [jan|feb|...|dec] *)
Definition re_b : Re.regex := Re.Alts (map LitI a_month).

(** [\d\d\d\d] *)
Definition re_Y : Re.regex := Re.Seqs [Re.Chr d; Re.Chr d; Re.Chr d; Re.Chr d].

(** [2[0-3]|[0-1]\d|\d] *)
Definition re_H : Re.regex :=
  Re.Alts [ Re.Seqs [one "2"; Re.Chr (range "0" "3")];
         Re.Seqs [Re.Chr (range "0" "1"); Re.Chr d];
         Re.Chr d ].

(** [[0-5]\d|\d] *)
Definition re_M : Re.regex :=
  Re.Alts [ Re.Seqs [Re.Chr (range "0" "5"); Re.Chr d]; Re.Chr d ].

(** The pattern [_strptime] compiles for ["%d-%b-%Y %H:%M"]; the blank of
    the format stands for [\s+]. *)
Definition format_regex : Re.regex :=
  Re.Seqs [ Re.Group 1 re_d; one "-"; Re.Group 2 re_b; one "-"; Re.Group 3 re_Y;
         Re.Plus Str.isspace;
         Re.Group 4 re_H; one ":"; Re.Group 5 re_M ].

(** [int(s)] for the text of a group: decimal digits, the day possibly
    after a blank. *)
Definition int_ (s : pystr) : option Z :=
  match Str.strip s with
  | [] => None
  | ds => fold_left (fun acc c => a ← acc; v ← todecimal c; Some (10 * a + Z.of_N v)%Z)
                    ds (Some 0%Z)
  end.

(** [datetime.strptime(data, "%d-%b-%Y %H:%M")].  Every failure is a
    [ValueError]: no match, text left after the match, a month text that
    is not in [a_month] once lowered, or a day that the month does not
    have (the year 0 included). *)
Definition strptime (data : pystr) : result datetime :=
  let fail := Raise (TimeValueError data) in
  match Re.match_ format_regex data with
  | Some (g, []) =>
      match Re.group 1 g ≫= int_,
            Re.group 2 g ≫= (fun b => index_from 1 (lower b) a_month),
            Re.group 3 g ≫= int_,
            Re.group 4 g ≫= int_,
            Re.group 5 g ≫= int_ with
      | Some dd, Some mm, Some yy, Some hh, Some mi =>
          if ((1 <=? yy) && (1 <=? dd) && (dd <=? days_in_month yy mm))%Z
          then Ok (mk_datetime yy mm dd hh mi)
          else fail
      | _, _, _, _, _ => fail
      end
  | _ => fail
  end.

End Strptime.

End Datetime.

(** ** The BeautifulSoup tree *)

Module Soup.

(** The class of a string object of the tree.  [get_text] keeps the two
    first only; [OtherString] stands for the remaining subclasses
    ([Script], [Stylesheet], [Doctype], ...). *)
Inductive string_kind : Set :=
| NavigableString
| CData
| Comment
| OtherString.

(** A node is a string or a tag.  A tag has a name, its attributes and its
    children.  The HTML tree builder stores [class] as a list of strings
    ([class_]; [None] when the tag has no such attribute) and each
    attribute the program reads ([title], [href], [onclick]) as one string
    ([attrs], read by name).  Tag names carry no namespace prefix. *)
#[warnings="-register-all"]
Inductive node : Type :=
| Text (kind : string_kind) (s : pystr)
| Tag (name : pystr) (class_ : option (list pystr))
      (attrs : list (pystr * pystr)) (contents : list node).

(** A node of a document together with its ancestors, nearest first. *)
Definition element : Type := node * list node.

(** [walk up n]: the descendants of [n] in document order, each with its
    ancestors, [up] being the ancestors of [n]. *)
Fixpoint walk (up : list node) (n : node) : list element :=
  match n with
  | Text _ _ => []
  | Tag _ _ _ cs =>
      (fix go (l : list node) : list element :=
         match l with
         | [] => []
         | c :: l' => (c, n :: up) :: walk (n :: up) c ++ go l'
         end) cs
  end.

(** [n.descendants] *)
Definition descendants (n : node) : list node := map fst (walk [] n).

Definition is_tag (name : pystr) (n : node) : bool :=
  match n with
  | Tag nm _ _ _ => Str.eqb nm name
  | Text _ _ => false
  end.

(** [n.string]: the string itself for a string; for a tag, the [.string]
    of its only child, and [None] when it has no child or several. *)
Fixpoint string_ (n : node) : option pystr :=
  match n with
  | Text _ s => Some s
  | Tag _ _ _ [c] => string_ c
  | Tag _ _ _ _ => None
  end.

(** [n.find(name)] and [n.find_all(name)] *)
Definition find (name : pystr) (n : node) : option node :=
  List.find (is_tag name) (descendants n).

Definition find_all (name : pystr) (n : node) : list node :=
  List.filter (is_tag name) (descendants n).

(** [n.find_all([name1, name2])] *)
Definition find_all_either (name1 name2 : pystr) (n : node) : list node :=
  List.filter (fun x => is_tag name1 x || is_tag name2 x) (descendants n).

(** The filter of [find(name, string=f)]: a tag of that name whose
    [.string] satisfies [f]; [f] gets [None] when there is no [.string]. *)
Definition tag_with_string (name : pystr) (f : option pystr -> bool) (n : node) : bool :=
  is_tag name n && f (string_ n).

(** [lambda t: t and sub in t] *)
Definition truthy_and_contains (sub : pystr) (t : option pystr) : bool :=
  match t with
  | Some ((_ :: _) as s) => Str.contains sub s
  | _ => false
  end.

(** A string attribute of a tag: [Some] of [tag[key]] when [key in
    tag.attrs], [None] otherwise. *)
Definition attr (key : pystr) (n : node) : option pystr :=
  match n with
  | Tag _ _ attrs _ => snd <$> List.find (fun kv => Str.eqb (fst kv) key) attrs
  | Text _ _ => None
  end.

(** [tag.get(key, default)] *)
Definition get (key : pystr) (default : pystr) (n : node) : pystr :=
  match attr key n with
  | Some v => v
  | None => default
  end.

(** [tag.get("class", [])] *)
Definition get_class (n : node) : list pystr :=
  match n with
  | Tag _ (Some cl) _ _ => cl
  | _ => []
  end.

(** The filter [class_=c]: some class of the tag is [c], or its classes
    joined by blanks are. *)
Definition has_class (c : pystr) (n : node) : bool :=
  match n with
  | Tag _ (Some cl) _ _ => existsb (fun x => Str.eqb x c) cl || Str.eqb (Str.join (lit " ") cl) c
  | _ => false
  end.

(** The strings [get_text] reads under a node, in document order. *)
Definition strings (n : node) : list pystr :=
  omap (fun x => match x with
                 | Text NavigableString s | Text CData s => Some s
                 | _ => None
                 end) (descendants n).

(** [n.get_text(sep, strip=True)]: each string is stripped, the empty
    ones are left out, and the rest is joined by [sep]. *)
Definition get_text (sep : pystr) (n : node) : pystr :=
  Str.join sep (List.filter (fun s => negb (Str.eqb s [])) (map Str.strip (strings n))).

(** [el.find_parent(name)] *)
Definition find_parent (name : pystr) (el : element) : option node :=
  List.find (is_tag name) (snd el).

(** [soup.find(name, string=f)] as an element of the document. *)
Definition find_element (name : pystr) (f : option pystr -> bool) (soup : node)
  : option element :=
  List.find (fun el => tag_with_string name f (fst el)) (walk [] soup).

(** The first node of a list that satisfies [p], with the nodes after
    it. *)
Fixpoint first_and_next (p : node -> bool) (l : list node) : option (node * list node) :=
  match l with
  | [] => None
  | x :: l' => if p x then Some (x, l') else first_and_next p l'
  end.

End Soup.

(** * The program *)

(** [for x in l: s = body(x, s)], stopped by the first exception. *)
Fixpoint for_each {A S : Type} (body : A -> S -> result S) (l : list A) (s : S) : result S :=
  match l with
  | [] => Ok s
  | x :: l' => let! s' := body x s in for_each body l' s'
  end.

Definition SIDCO_BASE : pystr := lit "https://sidco.conaf.cl".

(** ** [parsear_tabla_incendios] *)

(** One dictionary of [filas]: its thirteen keys, [None] being Python's
    [None]. *)
Record fila : Type := mk_fila {
  alerta_titulo : pystr;
  alerta_codigo : option pystr;
  fecha_raw : pystr;
  fecha : option Datetime.datetime;
  region : pystr;
  nombre : pystr;
  ambito : pystr;
  comuna : pystr;
  estado : pystr;
  superficie_ha : option Float.float;
  url_poligono : option pystr;
  url_ficha : option pystr;
  url_archivos : option pystr
}.

Definition titulo_vigentes : pystr := lit "Incendios forestales vigentes".

Definition msg_sin_titulo : pystr :=
  lit "No se encontr" ++ [o_acute] ++ lit " el t" ++ [i_acute]
  ++ lit "tulo 'Incendios forestales vigentes'".
Definition msg_sin_tabla : pystr :=
  lit "No se encontr" ++ [o_acute]
  ++ lit " la tabla de incendios (encabezados Fecha/Regi" ++ [o_acute] ++ lit "n).".
Definition msg_sin_tbody : pystr := lit "La tabla de incendios no tiene <tbody>.".

Definition Fecha : pystr := lit "Fecha".
Definition Region : pystr := lit "Regi" ++ [o_acute] ++ lit "n".

(** The test of the loop over [tablas]: the table has a [thead] whose
    cells, [td] or [th], have both header texts among theirs. *)
Definition encabezados_fecha_region (t : Soup.node) : bool :=
  match Soup.find (lit "thead") t with
  | None => false
  | Some thead =>
      let header_cells :=
        map (Soup.get_text []) (Soup.find_all_either (lit "td") (lit "th") thead) in
      existsb (Str.eqb Fecha) header_cells && existsb (Str.eqb Region) header_cells
  end.

(** [for t in tablas: ... tabla_incendios = t; break] *)
Fixpoint buscar_tabla (tablas : list Soup.node) : option Soup.node :=
  match tablas with
  | [] => None
  | t :: rest => if encabezados_fecha_region t then Some t else buscar_tabla rest
  end.

Definition prefijo_alerta : pystr := lit "incendio-estado-alerta-".

(** Column 0: [alerta_titulo] and [alerta_codigo]. *)
Definition alerta (td0 : Soup.node) : pystr * option pystr :=
  match Soup.find (lit "span") td0 with
  | Some alerta_span =>
      (Soup.get (lit "title") [] alerta_span,
       List.find (Str.startswith prefijo_alerta) (Soup.get_class alerta_span))
  | None => ([], Some [])
  end.

(** Columns 8, 9 and 11: the link of the first [a] of the cell, if it has
    an [href]. *)
Definition url (td : Soup.node) : option pystr :=
  match Soup.find (lit "a") td with
  | Some a =>
      match Soup.attr (lit "href") a with
      | Some href => Some (SIDCO_BASE ++ href)
      | None => None
      end
  | None => None
  end.

Section Parsers.
Context `{UnicodeData}.

(** Column 7, from the text of the cell: [superficie_txt] and
    [superficie]. *)
Definition superficie_de_texto (texto : pystr) : result (option Float.float) :=
  let superficie_txt := Str.replace (lit ",") (lit ".") (Str.replace (lit ".") [] texto) in
  match superficie_txt with
  | [] => Ok None
  | _ => let! f := Float.float_ superficie_txt in Ok (Some f)
  end.

(** [fecha_dt], from [fecha_raw]. *)
Definition fecha_de_texto (fecha_raw : pystr) : result (option Datetime.datetime) :=
  match fecha_raw with
  | [] => Ok None
  | _ =>
      match Datetime.strptime fecha_raw with
      | Ok dt => Ok (Some dt)
      | Raise e => if is_ValueError e then Ok None else Raise e
      end
  end.

(** The body of the loop over the rows once the row is kept: the
    dictionary appended to [filas]. *)
Definition fila_de_tds (tds : list Soup.node) : result fila :=
  let! td0 := item tds 0 in
  let '(alerta_titulo, alerta_codigo) := alerta td0 in
  let! td1 := item tds 1 in
  let fecha_raw := Soup.get_text [] td1 in
  let! td2 := item tds 2 in
  let region := Soup.get_text [] td2 in
  let! td3 := item tds 3 in
  let nombre := Soup.get_text [] td3 in
  let! td4 := item tds 4 in
  let ambito := Soup.get_text [] td4 in
  let! td5 := item tds 5 in
  let comuna := Soup.get_text [] td5 in
  let! td6 := item tds 6 in
  let estado := Soup.get_text (lit " ") td6 in
  let! td7 := item tds 7 in
  let! superficie := superficie_de_texto (Soup.get_text [] td7) in
  let! td_poligono := item tds 8 in
  let url_poligono := url td_poligono in
  let! td_ficha := item tds 9 in
  let url_ficha := url td_ficha in
  let! td_archivos := item tds 11 in
  let url_archivos := url td_archivos in
  let! fecha_dt := fecha_de_texto fecha_raw in
  Ok (mk_fila alerta_titulo alerta_codigo fecha_raw fecha_dt region nombre ambito
              comuna estado superficie url_poligono url_ficha url_archivos).

(** One turn of [for tr in tbody.find_all("tr")]. *)
Definition fila_de_tr (tr : Soup.node) (filas : list fila) : result (list fila) :=
  let tds := Soup.find_all (lit "td") tr in
  if (length tds <? 12)%nat then Ok filas
  else let! f := fila_de_tds tds in Ok (filas ++ [f]).

(** The rows of a table body, from the empty [filas]. *)
Definition filas_de_tbody (tbody : Soup.node) : result (list fila) :=
  for_each fila_de_tr (Soup.find_all (lit "tr") tbody) [].

(** The heading and the nodes after it in document order, through which
    [find_all_next] searches. *)
Definition buscar_h1 (soup : Soup.node) : option (Soup.node * list Soup.node) :=
  Soup.first_and_next
    (Soup.tag_with_string (lit "h1") (Soup.truthy_and_contains titulo_vigentes))
    (Soup.descendants soup).

(** [h1.find_all_next("table", class_="tabla")] *)
Definition tablas_siguientes (siguientes : list Soup.node) : list Soup.node :=
  List.filter (fun n => Soup.is_tag (lit "table") n && Soup.has_class (lit "tabla") n)
              siguientes.

(** [parsear_tabla_incendios], on the parsed page; the result is the list
    [filas] the data frame is built from. *)
Definition parsear_tabla_incendios (soup : Soup.node) : result (list fila) :=
  match buscar_h1 soup with
  | None => Raise (ValueError msg_sin_titulo)
  | Some (h1, siguientes) =>
      match buscar_tabla (tablas_siguientes siguientes) with
      | None => Raise (ValueError msg_sin_tabla)
      | Some tabla_incendios =>
          match Soup.find (lit "tbody") tabla_incendios with
          | None => Raise (ValueError msg_sin_tbody)
          | Some tbody => filas_de_tbody tbody
          end
      end
  end.

End Parsers.

(** ** [parsear_ficha_incendio] *)

(** A value of the dictionary [datos]: a text or a [float]. *)
Inductive value : Type :=
| VStr (s : pystr)
| VFloat (f : Float.float).

(** [[\-0-9\.]] *)
Definition signo_digito_punto (c : char) : bool :=
  ((c =? 45) || Str.in_range 48 57 c || (c =? 46))%N.

(** [linkMapa\(this,\s*([\-0-9\.]+),\s*([\-0-9\.]+)\)] *)
Definition linkMapa_re : Re.regex :=
  Re.Seqs
    [ Re.Lit (lit "linkMapa(this,"); Re.Star Str.isspace;
      Re.Group 1 (Re.Plus signo_digito_punto);
      Re.Chr (Re.exactly 44); Re.Star Str.isspace;
      Re.Group 2 (Re.Plus signo_digito_punto);
      Re.Chr (Re.exactly 41) ].

Definition Coordenadas_operativas : pystr := lit "Coordenadas operativas".
Definition Coordenadas_UTM : pystr := lit "Coordenadas UTM".
Definition Coordenadas_geograficas : pystr :=
  lit "Coordenadas geogr" ++ [a_acute] ++ lit "ficas".
Definition CONDICIONES : pystr :=
  lit "CONDICIONES METEOROLOGICAS Y TOPOGRAFICAS INICIALES".

(** The dictionary [mapeo] of the second block. *)
Definition mapeo : gmap pystr pystr :=
  list_to_map
    [ (lit "Temperatura:", lit "meteo_temperatura");
      (lit "Nubosidad:", lit "meteo_nubosidad");
      (lit "Hum. relativa:", lit "meteo_hum_relativa");
      (lit "Velocidad viento:", lit "meteo_vel_viento");
      (lit "Pendiente:", lit "meteo_pendiente");
      (lit "Exposici" ++ [o_acute] ++ lit "n:", lit "meteo_exposicion");
      (lit "Direccion viento:", lit "meteo_dir_viento");
      (lit "Topografia:", lit "meteo_topografia");
      (lit "Estacion Meteorol" ++ [o_acute] ++ lit "gica:", lit "meteo_estacion");
      (lit "Fecha:", lit "meteo_fecha") ].

Section Ficha.
Context `{UnicodeData}.

(** [lat] and [lon] from the text of [onclick]: both stay [None] unless
    the pattern is found, and then each group goes through [float]. *)
Definition lat_lon_de_onclick (onclick : pystr)
  : result (option Float.float * option Float.float) :=
  match Re.search linkMapa_re onclick with
  | Some m =>
      match Re.group 1 m, Re.group 2 m with
      | Some g1, Some g2 =>
          let! lat := Float.float_ g1 in
          let! lon := Float.float_ g2 in
          Ok (Some lat, Some lon)
      | _, _ => Raise TypeError
      end
  | None => Ok (None, None)
  end.

(** [lat] and [lon] from the cell of the operative value: the first [a]
    of the cell, if any, gives the [onclick]. *)
Definition lat_lon (celda : Soup.node) : result (option Float.float * option Float.float) :=
  match Soup.find (lit "a") celda with
  | Some a_tag => lat_lon_de_onclick (Soup.get (lit "onclick") [] a_tag)
  | None => Ok (None, None)
  end.

(** One turn of the loop over the rows of the coordinates table. *)
Definition fila_coordenadas (tr : Soup.node) (datos : gmap pystr value)
  : result (gmap pystr value) :=
  let celdas := Soup.find_all (lit "td") tr in
  if (length celdas <? 4)%nat then Ok datos
  else
    let! c0 := item celdas 0 in
    let etiqueta := Soup.get_text [] c0 in
    let! c1 := item celdas 1 in
    let valor_op := Soup.get_text [] c1 in
    let! c3 := item celdas 3 in
    let valor_inv := Soup.get_text [] c3 in
    let! ll := lat_lon c1 in
    if Str.contains Coordenadas_UTM etiqueta then
      Ok (<[lit "utm_investigadas" := VStr valor_inv]>
            (<[lit "utm_operativas" := VStr valor_op]> datos))
    else if Str.contains Coordenadas_geograficas etiqueta then
      let datos' := <[lit "geo_investigadas" := VStr valor_inv]>
                      (<[lit "geo_operativas" := VStr valor_op]> datos) in
      match ll with
      | (Some lat, Some lon) =>
          Ok (<[lit "lon_operativa" := VFloat lon]>
                (<[lit "lat_operativa" := VFloat lat]> datos'))
      | _ => Ok datos'
      end
    else Ok datos.

(** One turn of the loop over the rows of the conditions table. *)
Definition fila_condiciones (tr : Soup.node) (datos : gmap pystr value)
  : result (gmap pystr value) :=
  let celdas := Soup.find_all (lit "td") tr in
  if (length celdas <? 2)%nat then Ok datos
  else
    let! c0 := item celdas 0 in
    let etiqueta := Soup.get_text [] c0 in
    let! c1 := item celdas 1 in
    let valor := Soup.get_text [] c1 in
    match mapeo !! etiqueta with
    | Some clave => Ok (<[clave := VStr valor]> datos)
    | None => Ok datos
    end.

(** A block of the function: find the [td] whose [.string] has the
    marker, go up to its table, down to the [tbody] of the table, and run
    the loop over its rows.  [tabla.find] on a missing table is an
    attribute access on [None]. *)
Definition bloque (marca : pystr)
           (cuerpo : Soup.node -> gmap pystr value -> result (gmap pystr value))
           (soup : Soup.node) (datos : gmap pystr value) : result (gmap pystr value) :=
  match Soup.find_element (lit "td") (Soup.truthy_and_contains marca) soup with
  | None => Ok datos
  | Some td =>
      match Soup.find_parent (lit "table") td with
      | None => Raise (NoneAttributeError (lit "find"))
      | Some tabla =>
          match Soup.find (lit "tbody") tabla with
          | None => Ok datos
          | Some tbody => for_each cuerpo (Soup.find_all (lit "tr") tbody) datos
          end
      end
  end.

Definition bloque_coordenadas : Soup.node -> gmap pystr value -> result (gmap pystr value) :=
  bloque Coordenadas_operativas fila_coordenadas.

Definition bloque_condiciones : Soup.node -> gmap pystr value -> result (gmap pystr value) :=
  bloque CONDICIONES fila_condiciones.

(** [parsear_ficha_incendio], on the parsed page. *)
Definition parsear_ficha_incendio (soup : Soup.node) : result (gmap pystr value) :=
  let! datos := bloque_coordenadas soup ∅ in
  bloque_condiciones soup datos.

End Ficha.

(** ** [scrapear_incendios_y_fichas] *)

(** The function drives a browser, prints its progress, and reads back
    from the data frame it has built.  What it asks of the outside is kept
    as a history of calls; the outside answers through [entorno]: whether
    a call raises and what, the document a [page.content()] gives (as
    [BeautifulSoup(_, "lxml")] reads it), and what pandas hands back for
    the [None] of a column of texts. *)
Module Scraper.

Inductive opcion : Type :=
| Timeout (ms : N)
| WaitUntil (estado : pystr).

(** What [row.get("url_ficha")] gives: the text of the dictionary, and
    for its [None] either [None] or [nan], as the type pandas gave the
    column has it. *)
Inductive objeto : Type :=
| PyNone
| PyNaN
| PyStr (s : pystr).

(** [bool(o)]: [nan] is a [float] other than zero. *)
Definition verdadero (o : objeto) : bool :=
  match o with
  | PyNone | PyStr [] => false
  | PyNaN | PyStr (_ :: _) => true
  end.

(** [str(o)], as an f-string writes it. *)
Definition str_de (o : objeto) : pystr :=
  match o with
  | PyNone => lit "None"
  | PyNaN => lit "nan"
  | PyStr s => s
  end.

Inductive llamada : Type :=
| Start                                   (* entering [with sync_playwright() as p] *)
| Launch (headless : bool)                (* [p.chromium.launch(headless=...)] *)
| NewPage                                 (* [browser.new_page()] *)
| Goto (url : objeto) (o : opcion)        (* [page.goto(url, ...)] *)
| WaitForTimeout (ms : N)                 (* [page.wait_for_timeout(ms)] *)
| WaitForSelector (selector : pystr)      (* [page.wait_for_selector(selector)] *)
| Fill (selector valor : pystr)           (* [page.fill(selector, valor)] *)
| Click (selector : pystr)                (* [page.click(selector)] *)
| WaitForLoadState (estado : pystr)       (* [page.wait_for_load_state(estado)] *)
| Content                                 (* [page.content()] *)
| Print (linea : pystr)                   (* [print(linea)] *)
| Close                                   (* [browser.close()] *)
| Stop.                                   (* leaving the [with] block *)

(** The history holds the latest call first. *)
Definition historia : Type := list llamada.

(** An exception: one of those the parsers raise, or any other, by the
    name of its class and its message. *)
Inductive excepcion : Type :=
| Exn (e : exn)
| Otra (clase mensaje : pystr).

Record entorno : Type := mk_entorno {
  (** the exception the latest call of the history raises, if it does *)
  falla : historia -> option excepcion;
  (** the document of the latest call, a [Content] *)
  pagina : historia -> Soup.node;
  (** whether the [None]s of the column [url_ficha] of
      [pd.DataFrame(filas)] are read back as [nan] *)
  nan_por_None : list fila -> bool
}.

Inductive salida (A : Type) : Type :=
| Hecho (a : A)
| Error (e : excepcion).
Arguments Hecho {A} a.
Arguments Error {A} e.

Definition M (A : Type) : Type := historia -> salida A * historia.

Definition ret {A : Type} (a : A) : M A := fun h => (Hecho a, h).

Definition raise {A : Type} (e : excepcion) : M A := fun h => (Error e, h).

Definition seguido {A B : Type} (c : M A) (k : A -> M B) : M B :=
  fun h => match c h with
           | (Hecho a, h') => k a h'
           | (Error e, h') => (Error e, h')
           end.

Notation "'let*' x ':=' c 'in' k" := (seguido c (fun x => k))
  (at level 10, x name, c at level 100, k at level 200).

(** A cell of the data frame; [CNone] is [None], [NaN] or [NaT]. *)
Inductive celda : Type :=
| CNone
| CStr (s : pystr)
| CFloat (f : Float.float)
| CFecha (dt : Datetime.datetime).

(** A row of the data frame, by column; a column the row has no cell for
    holds [NaN] there. *)
Definition serie : Type := gmap pystr celda.

(** The rows, by position: the index of [pd.DataFrame(filas)] is
    [0 .. len(filas) - 1]. *)
Definition dataframe : Type := list serie.

Definition celda_de_texto (o : option pystr) : celda :=
  match o with Some s => CStr s | None => CNone end.

Definition celda_de_valor (v : value) : celda :=
  match v with VStr s => CStr s | VFloat f => CFloat f end.

(** The row of [pd.DataFrame(filas)] for one dictionary of [filas]. *)
Definition serie_de_fila (f : fila) : serie :=
  list_to_map
    [ (lit "alerta_titulo", CStr (alerta_titulo f));
      (lit "alerta_codigo", celda_de_texto (alerta_codigo f));
      (lit "fecha_raw", CStr (fecha_raw f));
      (lit "fecha", match fecha f with Some dt => CFecha dt | None => CNone end);
      (lit "region", CStr (region f));
      (lit "nombre", CStr (nombre f));
      (lit "ambito", CStr (ambito f));
      (lit "comuna", CStr (comuna f));
      (lit "estado", CStr (estado f));
      (lit "superficie_ha", match superficie_ha f with Some x => CFloat x | None => CNone end);
      (lit "url_poligono", celda_de_texto (url_poligono f));
      (lit "url_ficha", celda_de_texto (url_ficha f));
      (lit "url_archivos", celda_de_texto (url_archivos f)) ].

(** [for col, val in datos_ficha.items(): df.at[idx, col] = val] *)
Definition actualizar (idx : nat) (datos : gmap pystr value) (df : dataframe) : dataframe :=
  alter (fun row => (celda_de_valor <$> datos) ∪ row) idx df.

(** [not x] for a text or [None] *)
Definition vacio (o : option pystr) : bool :=
  match o with
  | None | Some [] => true
  | Some (_ :: _) => false
  end.

(** [str(n)] *)
Definition str_de_nat (n : nat) : pystr := lit (DecimalString.NilEmpty.string_of_uint (Nat.to_uint n)).

Definition msg_credenciales : pystr :=
  lit "Faltan variables de entorno SIDCO_USER y/o SIDCO_PASS".

Definition networkidle : pystr := lit "networkidle".
Definition input_username : pystr := lit "input[name=" ++ [34%N] ++ lit "username" ++ [34%N] ++ lit "]".
Definition input_password : pystr := lit "input[name=" ++ [34%N] ++ lit "password" ++ [34%N] ++ lit "]".
Definition url_login : pystr := SIDCO_BASE ++ lit "/login/index.php".
Definition url_principal : pystr := SIDCO_BASE ++ lit "/principal.php".

(** [RuntimeError(msg)] *)
Definition RuntimeError (msg : pystr) : excepcion := Otra (lit "RuntimeError") msg.

Section Navegador.
Context `{UnicodeData} (env : entorno).

(** A call of the outside: it goes into the history, and raises what the
    outside makes it raise. *)
Definition llamar (c : llamada) : M unit :=
  fun h => match falla env (c :: h) with
           | Some e => (Error e, c :: h)
           | None => (Hecho tt, c :: h)
           end.

Definition contenido : M Soup.node :=
  fun h => match falla env (Content :: h) with
           | Some e => (Error e, Content :: h)
           | None => (Hecho (pagina env (Content :: h)), Content :: h)
           end.

(** A call of one of the two parsers. *)
Definition parsear {A : Type} (r : result A) : M A :=
  match r with
  | Ok a => ret a
  | Raise e => raise (Exn e)
  end.

(** [row.get("url_ficha")] for the row of [f] in [pd.DataFrame(filas)]. *)
Definition leer_url_ficha (filas : list fila) (f : fila) : objeto :=
  match url_ficha f with
  | Some s => PyStr s
  | None => if nan_por_None env filas then PyNaN else PyNone
  end.

(** The body of the loop over [df.iterrows()], for the row [idx] of [n],
    [url_ficha] being what [row.get("url_ficha")] gave. *)
Definition ficha_de_fila (n idx : nat) (url_ficha : objeto) (df : dataframe) : M dataframe :=
  if negb (verdadero url_ficha) then ret df
  else
    let* _ := llamar (Print (lit "Procesando ficha " ++ str_de_nat (idx + 1) ++ lit "/"
                             ++ str_de_nat n ++ lit ": " ++ str_de url_ficha)) in
    let* _ := llamar (Goto url_ficha (WaitUntil networkidle)) in
    let* ficha_html := contenido in
    let* datos_ficha := parsear (parsear_ficha_incendio ficha_html) in
    ret (actualizar idx datos_ficha df).

(** The loop, from the row [idx] on; [urls] holds what
    [row.get("url_ficha")] gives for each of these rows. *)
Fixpoint fichas (n idx : nat) (urls : list objeto) (df : dataframe) : M dataframe :=
  match urls with
  | [] => ret df
  | url_ficha :: urls' =>
      let* df' := ficha_de_fila n idx url_ficha df in
      fichas n (S idx) urls' df'
  end.

(** [with sync_playwright() as p: ...]: the block is left through [Stop]
    however its body ends, and an exception of [Stop] is the one that
    goes on. *)
Definition con_playwright {A : Type} (cuerpo : M A) : M A :=
  let* _ := llamar Start in
  fun h => let (r, h') := cuerpo h in
           match llamar Stop h' with
           | (Hecho _, h'') => (r, h'')
           | (Error e, h'') => (Error e, h'')
           end.

Definition scrapear_incendios_y_fichas (USUARIO PASSWORD : option pystr) : M dataframe :=
  match USUARIO, PASSWORD with
  | Some ((_ :: _) as USUARIO), Some ((_ :: _) as PASSWORD) =>
      con_playwright (
        let* _ := llamar (Launch true) in
        let* _ := llamar NewPage in
        let* _ := llamar (Goto (PyStr url_login) (Timeout 120000)) in
        let* _ := llamar (WaitForTimeout 3000) in
        let* _ := llamar (WaitForSelector input_username) in
        let* _ := llamar (Fill input_username USUARIO) in
        let* _ := llamar (Fill input_password PASSWORD) in
        let* _ := llamar (Click (lit "#div_btn_0-button")) in
        let* _ := llamar (WaitForLoadState networkidle) in
        let* _ := llamar (Goto (PyStr url_principal) (WaitUntil networkidle)) in
        let* html_main := contenido in
        let* filas := parsear (parsear_tabla_incendios html_main) in
        let* df := fichas (length filas) 0 (map (leer_url_ficha filas) filas)
                          (map serie_de_fila filas) in
        let* _ := llamar Close in
        ret df)
  | _, _ => raise (RuntimeError msg_credenciales)
  end.

End Navegador.

End Scraper.

(** ** [main]: the names of the columns *)

(** [name.replace(r"[^\x00-\x7F]", "", regex=True).strip()] for one column
    name: the characters above ASCII are taken out, then the blanks at the
    ends. *)
Definition limpiar_columna (nombre : pystr) : pystr :=
  Str.strip (List.filter (fun c => (c <=? 127)%N) nombre).

(** [df.columns = df.columns.astype(str).str.replace(...).str.strip()] *)
Definition limpiar_columnas (columnas : list pystr) : list pystr :=
  map limpiar_columna columnas.

(** * Pages used as examples *)

Module Pagina.
Import Soup.

Definition el (name : string) (cs : list node) : node := Tag (lit name) None [] cs.
Definition txt (s : string) : node := Text NavigableString (lit s).
Definition td (s : string) : node := el "td" [txt s].
Definition documento (cuerpo : list node) : node :=
  el "[document]" [el "html" [el "body" cuerpo]].

(** [<span class="foo incendio-estado-alerta-roja" title="Alerta Roja">] *)
Definition span_alerta : node :=
  Tag (lit "span") (Some [lit "foo"; lit "incendio-estado-alerta-roja"])
      [(lit "title", lit "Alerta Roja")] [].

Definition enlace (href : string) : node :=
  Tag (lit "a") None [(lit "href", lit href)] [txt "ver"].

(** A row of twelve cells, with the text of the area cell as given. *)
Definition tr_incendio (superficie : string) : node :=
  el "tr" [ el "td" [span_alerta]; td "16-nov-2025 18:36"; td "Valparaiso";
            td "El Roble"; td "Rural"; td "Quilpue"; td "En combate";
            td superficie; el "td" [enlace "/descarga/1"];
            el "td" [enlace "/ficha/1"]; td ""; el "td" [] ].

Definition tr_corta : node := el "tr" [td "a"; td "b"; td "c"].

Definition thead_incendios : node :=
  el "thead" [el "tr" [el "th" [txt "Alerta"]; el "th" [txt "Fecha"];
                       el "th" [Text NavigableString Region]]].

Definition tabla (cs : list node) : node := Tag (lit "table") (Some [lit "tabla"]) [] cs.

Definition h1_vigentes : node := el "h1" [txt "Incendios forestales vigentes"].

(** The listing with a row of twelve cells and a row of three. *)
Definition tbody_incendios : node := el "tbody" [tr_incendio "1.234,5"; tr_corta].
Definition listado : node :=
  documento [h1_vigentes; tabla [thead_incendios; tbody_incendios]].

(** The dictionary of the row of twelve cells. *)
Definition fila_ejemplo : fila :=
  {| alerta_titulo := lit "Alerta Roja";
     alerta_codigo := Some (lit "incendio-estado-alerta-roja");
     fecha_raw := lit "16-nov-2025 18:36";
     fecha := Some (Datetime.mk_datetime 2025 11 16 18 36);
     region := lit "Valparaiso";
     nombre := lit "El Roble";
     ambito := lit "Rural";
     comuna := lit "Quilpue";
     estado := lit "En combate";
     superficie_ha := Some (Float.of_decimal false 12345 (-1));
     url_poligono := Some (lit "https://sidco.conaf.cl/descarga/1");
     url_ficha := Some (lit "https://sidco.conaf.cl/ficha/1");
     url_archivos := None |}.

(** The same listing with the area given as [s/i]. *)
Definition tbody_sin_informacion : node := el "tbody" [tr_incendio "s/i"; tr_corta].
Definition listado_sin_informacion : node :=
  documento [h1_vigentes; tabla [thead_incendios; tbody_sin_informacion]].

(** A page whose heading is another one. *)
Definition listado_sin_titulo : node :=
  documento [el "h1" [txt "Bienvenido"]; tabla [thead_incendios; tbody_incendios]].

(** A listing whose table has its rows outside of any [tbody]. *)
Definition listado_sin_tbody : node :=
  documento [h1_vigentes; tabla [thead_incendios; tr_incendio "0,75"]].

Definition a_onclick (onclick : string) : node :=
  Tag (lit "a") None [(lit "onclick", lit onclick)] [txt "mapa"].

Definition filas_coordenadas (onclick : string) : list node :=
  [ el "tr" [td "Coordenadas operativas"; td ""];
    el "tr" [td "Coordenadas UTM"; td "19H 280000 6300000"; td ""; td "19H 280100 6300100"];
    el "tr" [ el "td" [Text NavigableString Coordenadas_geograficas];
              el "td" [a_onclick onclick]; td ""; td "-33.46, -70.67" ] ].

Definition filas_condiciones : list node :=
  [ el "tr" [td "CONDICIONES METEOROLOGICAS Y TOPOGRAFICAS INICIALES"];
    el "tr" [td "Temperatura:"; td "25"];
    el "tr" [td "Otro dato:"; td "x"] ].

(** A detail page with both tables. *)
Definition ficha (onclick : string) : node :=
  documento [ el "table" [el "tbody" (filas_coordenadas onclick)];
              el "table" [el "tbody" filas_condiciones] ].

(** A detail page with neither of the two marker cells. *)
Definition ficha_sin_tablas : node :=
  documento [el "table" [el "tbody" [el "tr" [td "Nombre"; td "El Roble"]]]].

(** A detail page whose two tables have their rows outside of any
    [tbody]. *)
Definition ficha_sin_tbody : node :=
  documento [ el "table" (filas_coordenadas "linkMapa(this, -33.45, -70.66)");
              el "table" filas_condiciones ].

End Pagina.

Module MasPaginas.
Import Soup Pagina.

(** A listing whose only table with both headers comes before the heading;
    after the heading come a table of class [tabla] without [thead], one
    whose header lacks the region, and one with both headers but without
    the class. *)
Definition listado_sin_tabla : node :=
  documento
    [ tabla [thead_incendios; tbody_incendios];
      h1_vigentes;
      tabla [tbody_incendios];
      tabla [el "thead" [el "tr" [el "th" [txt "Fecha"]; el "th" [txt "Comuna"]]];
             tbody_incendios];
      el "table" [thead_incendios; tbody_incendios] ].

(** A detail page whose marker cell is in no table. *)
Definition ficha_sin_tabla : node :=
  documento [el "div" [td "Coordenadas operativas"; td "x"]].

(** A row of twelve cells without a link to its detail page. *)
Definition tr_sin_ficha : node :=
  el "tr" [ el "td" []; td "17-nov-2025 09:05"; td "Maule"; td "La Vega"; td "Rural";
            td "Talca"; td "Controlado"; td "0,75"; el "td" [];
            el "td" []; td ""; el "td" [] ].

(** A listing of two rows, the second without a link to its detail
    page. *)
Definition listado_dos_filas : node :=
  documento [h1_vigentes;
             tabla [thead_incendios; el "tbody" [tr_incendio "1.234,5"; tr_sin_ficha]]].

(** A listing whose row has [.] for its area. *)
Definition listado_punto : node :=
  documento [h1_vigentes; tabla [thead_incendios; el "tbody" [tr_incendio "."]]].

End MasPaginas.

Module MasFichas.
Import Soup Pagina.

(** A detail page whose conditions table gives the temperature twice. *)
Definition temperatura_1 : node := el "tr" [td "Temperatura:"; td "25"].
Definition temperatura_2 : node := el "tr" [td "Temperatura:"; td "31"].
Definition nubosidad : node := el "tr" [td "Nubosidad:"; td "parcial"].
Definition marca_condiciones : node :=
  el "tr" [td "CONDICIONES METEOROLOGICAS Y TOPOGRAFICAS INICIALES"].
Definition ficha_repetida : node :=
  documento
    [el "table" [el "tbody" [marca_condiciones; temperatura_1; temperatura_2; nubosidad]]].

End MasFichas.

(** * Sites used as examples *)

Module Entorno.
Import Soup Pagina Scraper.

(** A site: it answers every call, serves the document [paginas u] at the
    address [u], whatever came before, and has pandas read the [None]s of
    [url_ficha] back as [nan] or not as [nan] says. *)
Definition sitio (nan : bool) (paginas : objeto -> node) : entorno :=
  {| falla := fun _ => None;
     pagina := fun h =>
       match h with
       | Content :: Goto u _ :: _ => paginas u
       | _ => documento []
       end;
     nan_por_None := fun _ => nan |}.

(** The site with the listing of two rows at the main address and one
    detail page at every other. *)
Definition paginas_ejemplo (ficha : node) (u : objeto) : node :=
  match u with
  | PyStr s => if Str.eqb s url_principal then MasPaginas.listado_dos_filas else ficha
  | _ => ficha
  end.

End Entorno.

(** * Notions of the specification *)

(** A row of the listing is kept when it has twelve cells or more. *)
Definition fila_completa (tr : Soup.node) : bool :=
  (12 <=? length (Soup.find_all (lit "td") tr))%nat.

(** The area read from the eighth cell of a row. *)
Definition superficie_de_tr `{UnicodeData} (tr : Soup.node) : result (option Float.float) :=
  let! td7 := item (Soup.find_all (lit "td") tr) 7 in
  superficie_de_texto (Soup.get_text [] td7).

(** The text [float] is given for the area of a row: that of the eighth
    cell without its [.] and with [.] for its [,]. *)
Definition superficie_txt_de_tr (tr : Soup.node) : option pystr :=
  td7 ← Soup.find_all (lit "td") tr !! 7;
  Some (Str.replace (lit ",") (lit ".") (Str.replace (lit ".") [] (Soup.get_text [] td7))).

(** The keys each block of [parsear_ficha_incendio] can set. *)
Definition claves_coordenadas : list pystr :=
  map lit ["utm_operativas"; "utm_investigadas"; "geo_operativas";
           "geo_investigadas"; "lat_operativa"; "lon_operativa"]%string.

Definition claves_condiciones : list pystr := snd <$> map_to_list mapeo.

(** A marker cell: a [td] whose [.string] has the marker text. *)
Definition celda_marcada (marca : pystr) (n : Soup.node) : bool :=
  Soup.tag_with_string (lit "td") (Soup.truthy_and_contains marca) n.

(** A page without a marker cell. *)
Definition sin_celda (marca : pystr) (soup : Soup.node) : Prop :=
  forall n, In n (Soup.descendants soup) -> celda_marcada marca n = false.

(** The keys of the dictionaries of [filas]. *)
Definition columnas_listado : list pystr :=
  map lit ["alerta_titulo"; "alerta_codigo"; "fecha_raw"; "fecha"; "region";
           "nombre"; "ambito"; "comuna"; "estado"; "superficie_ha";
           "url_poligono"; "url_ficha"; "url_archivos"]%string.

(** A text without blanks at its ends. *)
Definition recortado (s : pystr) : bool :=
  match s with
  | [] => true
  | c :: _ => negb (Str.isspace c) && negb (Str.isspace (List.last s c))
  end.

(** What a link field of a dictionary holds for its cell: the site origin
    followed by the [href] of the first [a] of the cell, or [None] when the
    cell has no [a] or its first [a] has no [href]. *)
Definition enlace_de (td : Soup.node) (campo : option pystr) : Prop :=
  match campo with
  | Some u =>
      exists a href, Soup.find (lit "a") td = Some a
                     /\ Soup.attr (lit "href") a = Some href
                     /\ u = SIDCO_BASE ++ href
  | None =>
      Soup.find (lit "a") td = None
      \/ exists a, Soup.find (lit "a") td = Some a /\ Soup.attr (lit "href") a = None
  end.

(** A text of ASCII characters only. *)
Definition solo_ascii (s : pystr) : bool := forallb (fun c => (c <=? 127)%N) s.

(** A text without its [.]. *)
Definition sin_puntos (s : pystr) : pystr := List.filter (fun c => negb (46 =? c)%N) s.

(** A key that is set in [datos]. *)
Definition presente (k : string) (datos : gmap pystr value) : Prop :=
  is_Some (datos !! lit k).

(** The coordinates of [datos] come in pairs: the operative value of a kind
    with the investigated one, the latitude with the longitude, and these
    two only beside the geographic pair. *)
Definition coordenadas_en_pares (datos : gmap pystr value) : Prop :=
  (presente "utm_operativas" datos <-> presente "utm_investigadas" datos)
  /\ (presente "geo_operativas" datos <-> presente "geo_investigadas" datos)
  /\ (presente "lat_operativa" datos <-> presente "lon_operativa" datos)
  /\ (presente "lat_operativa" datos -> presente "geo_operativas" datos).

(** The two keys that hold a [float]. *)
Definition es_numero (k : pystr) : bool :=
  Str.eqb k (lit "lat_operativa") || Str.eqb k (lit "lon_operativa").

(** A value of the kind its key asks for: a [float] under the two keys of
    the latitude and the longitude, a text under any other. *)
Definition valor_del_tipo (k : pystr) (v : value) : Prop :=
  match v with
  | VFloat _ => es_numero k = true
  | VStr _ => es_numero k = false
  end.

(** The addresses of the [page.goto] of a history, the first visit
    first. *)
Definition goto_url (c : Scraper.llamada) : option Scraper.objeto :=
  match c with Scraper.Goto u _ => Some u | _ => None end.

Definition visitadas (h : Scraper.historia) : list Scraper.objeto := rev (omap goto_url h).

(** [row] is the row of [f] after the loop over the detail pages of a site:
    as the listing gave it when what is read back for its [url_ficha] is
    not true, and else with the dictionary of the page at that address laid
    over it. *)
Definition fila_enriquecida `{UnicodeData} (paginas : Scraper.objeto -> Soup.node)
           (url : Scraper.objeto) (f : fila) (row : Scraper.serie) : Prop :=
  if Scraper.verdadero url then
    exists datos,
      parsear_ficha_incendio (paginas url) = Ok datos
      /\ row = (Scraper.celda_de_valor <$> datos) ∪ Scraper.serie_de_fila f
  else row = Scraper.serie_de_fila f.

(** A call made on the page or a [print]: not one that starts or stops
    playwright or closes the browser. *)
Definition de_pagina (c : Scraper.llamada) : Prop :=
  c <> Scraper.Close /\ c <> Scraper.Stop /\ c <> Scraper.Start.

(** The texts a pattern takes: [matches r w g] when [r] can match the whole
    of [w], setting the groups [g] on its way (the last set first). *)
Inductive matches : Re.regex -> pystr -> Re.groups -> Prop :=
| matches_Eps : matches Re.Eps [] []
| matches_Chr (p : char -> bool) (c : char) :
    p c = true -> matches (Re.Chr p) [c] []
| matches_Seq (r1 r2 : Re.regex) (w1 w2 : pystr) (g1 g2 : Re.groups) :
    matches r1 w1 g1 -> matches r2 w2 g2 -> matches (Re.Seq r1 r2) (w1 ++ w2) (g2 ++ g1)
| matches_Alt_l (r1 r2 : Re.regex) (w : pystr) (g : Re.groups) :
    matches r1 w g -> matches (Re.Alt r1 r2) w g
| matches_Alt_r (r1 r2 : Re.regex) (w : pystr) (g : Re.groups) :
    matches r2 w g -> matches (Re.Alt r1 r2) w g
| matches_Star (p : char -> bool) (w : pystr) :
    forallb p w = true -> matches (Re.Star p) w []
| matches_Group (i : nat) (r : Re.regex) (w : pystr) (g : Re.groups) :
    matches r w g -> matches (Re.Group i r) w ((i, w) :: g).

(** A text of one character or more, all of them [-], [.] or digits
    [0]..[9]: what a group of the pattern takes. *)
Definition numero_crudo (g : pystr) : Prop :=
  g <> [] /\ forallb signo_digito_punto g = true.

(** [onclick] holds the call the pattern looks for, with [g1] and [g2] for
    its two groups. *)
Definition con_linkMapa (onclick g1 g2 : pystr) : Prop :=
  exists antes ws1 ws2 despues,
    onclick = antes ++ lit "linkMapa(this," ++ ws1 ++ g1 ++ [44%N] ++ ws2 ++ g2
                    ++ [41%N] ++ despues
    /\ forallb Str.isspace ws1 = true /\ forallb Str.isspace ws2 = true
    /\ numero_crudo g1 /\ numero_crudo g2.

(** The key a row of the conditions table sets and the text it sets it
    to: the key [mapeo] has for the text of the first cell, and the text of
    the second cell; [None] for a row of fewer than two cells or with a
    label that [mapeo] lacks. *)
Definition condicion_de (tr : Soup.node) : option (pystr * pystr) :=
  let celdas := Soup.find_all (lit "td") tr in
  if (length celdas <? 2)%nat then None
  else
    c0 ← celdas !! 0%nat;
    c1 ← celdas !! 1%nat;
    clave ← mapeo !! Soup.get_text [] c0;
    Some (clave, Soup.get_text [] c1).

(** * Properties *)

(** ** Searches and loops *)

Lemma first_and_next_None (p : Soup.node -> bool) (l : list Soup.node) :
  (forall x, In x l -> p x = false) -> Soup.first_and_next p l = None.
Proof.
  induction l as [|x l IH]; intros Hall; [reflexivity|].
  simpl. rewrite (Hall x (or_introl eq_refl)).
  apply IH. intros y Hy. apply Hall. now right.
Qed.

Lemma find_None {A : Type} (p : A -> bool) (l : list A) :
  (forall x, In x l -> p x = false) -> List.find p l = None.
Proof.
  induction l as [|x l IH]; intros Hall; [reflexivity|].
  simpl. rewrite (Hall x (or_introl eq_refl)).
  apply IH. intros y Hy. apply Hall. now right.
Qed.

Lemma titulo_false (n : Soup.node) :
  (forall t, Soup.is_tag (lit "h1") n = true -> Soup.string_ n = Some t ->
             Str.contains titulo_vigentes t = false) ->
  Soup.tag_with_string (lit "h1") (Soup.truthy_and_contains titulo_vigentes) n = false.
Proof.
  intros Hn. unfold Soup.tag_with_string.
  destruct (Soup.is_tag (lit "h1") n) eqn:Htag; [|reflexivity].
  simpl. destruct (Soup.string_ n) as [[|c t]|] eqn:Hs; try reflexivity.
  simpl. exact (Hn (c :: t) eq_refl eq_refl).
Qed.

(** ** The listing without its heading *)

(** C2.  When no [h1] of the page has a [.string] with the text "Incendios
    forestales vigentes", [parsear_tabla_incendios] raises the [ValueError]
    of the missing title (the specification's [NotFoundError]) and gives no
    rows. *)
Theorem sin_titulo_ValueError `{UnicodeData} (soup : Soup.node) :
  (forall n t, In n (Soup.descendants soup) ->
               Soup.is_tag (lit "h1") n = true ->
               Soup.string_ n = Some t ->
               Str.contains titulo_vigentes t = false) ->
  parsear_tabla_incendios soup = Raise (ValueError msg_sin_titulo).
Proof.
  intros Hsin. unfold parsear_tabla_incendios, buscar_h1.
  rewrite first_and_next_None; [reflexivity|].
  intros n Hn. apply titulo_false. intros t. now apply Hsin.
Qed.

Lemma sin_titulo_ValueError_witness :
  @parsear_tabla_incendios unicode_14 Pagina.listado_sin_titulo
  = Raise (ValueError msg_sin_titulo).
Proof.
  apply (@sin_titulo_ValueError unicode_14 Pagina.listado_sin_titulo).
  intros n t Hn Htag Hs.
  vm_compute in Hn.
  repeat (destruct Hn as [<-|Hn]; [try discriminate Htag|]); [|contradiction].
  injection Hs as <-. vm_compute. reflexivity.
Defined.

(** ** The listing table without a body *)

(** C6.  When the heading is found and a table after it is chosen, but no
    [tbody] is among the descendants of that table,
    [parsear_tabla_incendios] raises the [ValueError] of the missing
    [tbody] (the specification's [MalformedDocumentError]). *)
Theorem sin_tbody_ValueError `{UnicodeData}
        (soup h1 tabla_incendios : Soup.node) (siguientes : list Soup.node) :
  buscar_h1 soup = Some (h1, siguientes) ->
  buscar_tabla (tablas_siguientes siguientes) = Some tabla_incendios ->
  (forall n, In n (Soup.descendants tabla_incendios) ->
             Soup.is_tag (lit "tbody") n = false) ->
  parsear_tabla_incendios soup = Raise (ValueError msg_sin_tbody).
Proof.
  intros Hh1 Htabla Hsin. unfold parsear_tabla_incendios.
  rewrite Hh1, Htabla. unfold Soup.find. now rewrite find_None.
Qed.

Lemma sin_tbody_ValueError_witness :
  @parsear_tabla_incendios unicode_14 Pagina.listado_sin_tbody
  = Raise (ValueError msg_sin_tbody).
Proof.
  eapply (@sin_tbody_ValueError unicode_14 Pagina.listado_sin_tbody).
  - vm_compute. reflexivity.
  - vm_compute. reflexivity.
  - intros n Hn. vm_compute in Hn.
    repeat (destruct Hn as [<-|Hn]; [reflexivity|]). contradiction.
Defined.

(** ** Dates *)

Lemma strptime_Raise `{UnicodeData} (data : pystr) (e : exn) :
  Datetime.strptime data = Raise e -> e = TimeValueError data.
Proof.
  unfold Datetime.strptime. intros Hr.
  repeat case_match; congruence.
Qed.

Lemma fecha_de_texto_Ok `{UnicodeData} (fecha_raw : pystr) :
  exists v, fecha_de_texto fecha_raw = Ok v.
Proof.
  unfold fecha_de_texto. destruct fecha_raw as [|c s]; [now eexists|].
  destruct (Datetime.strptime (c :: s)) as [dt|e] eqn:Hs; [now eexists|].
  apply strptime_Raise in Hs as ->. now eexists.
Qed.

(** ** Rows of the listing *)

Lemma superficie_de_texto_Raise `{UnicodeData} (texto : pystr) (e : exn) :
  superficie_de_texto texto = Raise e -> exists arg, e = FloatValueError arg.
Proof.
  unfold superficie_de_texto, Float.float_. intros Hr.
  repeat case_match; simpl in Hr; try discriminate; injection Hr as <-; now eexists.
Qed.

Ltac bind_inv H :=
  match type of H with
  | bind ?c _ = _ =>
      let E := fresh "E" in
      destruct c eqn:E; cbn [bind] in H; [|discriminate H]
  end.

Lemma item_Some {A : Type} (l : list A) (i : nat) (x : A) :
  item l i = Ok x -> l !! i = Some x.
Proof. unfold item. destruct (l !! i); congruence. Qed.

Lemma item_lt {A : Type} (l : list A) (i : nat) :
  (i < length l)%nat -> exists x, item l i = Ok x.
Proof.
  intros Hi. unfold item.
  destruct (lookup_lt_is_Some_2 l i Hi) as [x ->]. now eexists.
Qed.

(** What a dictionary of [filas] holds, cell by cell. *)
Lemma fila_de_tds_Ok `{UnicodeData} (tds : list Soup.node) (f : fila) :
  fila_de_tds tds = Ok f ->
  exists td0 td1 td7,
    tds !! 0%nat = Some td0 /\ tds !! 1%nat = Some td1 /\ tds !! 7%nat = Some td7 /\
    alerta td0 = (alerta_titulo f, alerta_codigo f) /\
    fecha_raw f = Soup.get_text [] td1 /\
    fecha_de_texto (fecha_raw f) = Ok (fecha f) /\
    superficie_de_texto (Soup.get_text [] td7) = Ok (superficie_ha f).
Proof.
  unfold fila_de_tds. intros Hf.
  bind_inv Hf. destruct (alerta a) as [titulo codigo] eqn:Ha.
  do 12 bind_inv Hf.
  injection Hf as <-. simpl.
  repeat match goal with E : item _ _ = Ok _ |- _ => apply item_Some in E end.
  eauto 12.
Qed.

(** With twelve cells or more, the only exception of a row is that of
    [float] on the area. *)
Lemma fila_de_tds_superficie `{UnicodeData} (tds : list Soup.node) :
  (12 <= length tds)%nat ->
  exists td7, tds !! 7%nat = Some td7 /\
    match superficie_de_texto (Soup.get_text [] td7) with
    | Ok _ => exists f, fila_de_tds tds = Ok f
    | Raise e => fila_de_tds tds = Raise e
    end.
Proof.
  intros Hlen. unfold fila_de_tds.
  destruct (item_lt tds 7 ltac:(lia)) as [td7 H7].
  exists td7. split; [now apply item_Some|]. rewrite H7.
  repeat match goal with
         | |- context [item tds ?i] =>
             let x := fresh "td" in
             let E := fresh "E" in
             destruct (item_lt tds i ltac:(lia)) as [x E]; rewrite E; cbn [bind]
         | |- context [let '(_, _) := alerta ?t in _] => destruct (alerta t)
         end.
  destruct (superficie_de_texto (Soup.get_text [] td7)) as [sup|e]; cbn [bind];
    [|reflexivity].
  match goal with
  | |- context [fecha_de_texto ?t] => destruct (fecha_de_texto_Ok t) as [v ->]
  end.
  cbn [bind]. now eexists.
Qed.

Lemma fila_completa_length (tr : Soup.node) :
  (length (Soup.find_all (lit "td") tr) <? 12)%nat = negb (fila_completa tr).
Proof.
  unfold fila_completa.
  destruct (Nat.ltb_spec (length (Soup.find_all (lit "td") tr)) 12);
    destruct (Nat.leb_spec 12 (length (Soup.find_all (lit "td") tr))); simpl; lia || reflexivity.
Qed.

Lemma superficie_de_tr_td7 `{UnicodeData} (tr td7 : Soup.node) :
  Soup.find_all (lit "td") tr !! 7%nat = Some td7 ->
  superficie_de_tr tr = superficie_de_texto (Soup.get_text [] td7).
Proof. intros H7. unfold superficie_de_tr, item. now rewrite H7. Qed.

(** One turn of the loop: a short row leaves [filas] as it is, a kept row
    adds its dictionary, or raises what [float] raised on its area. *)
Lemma fila_de_tr_cases `{UnicodeData} (tr : Soup.node) (filas : list fila) :
  if fila_completa tr then
    match superficie_de_tr tr with
    | Ok _ => exists f, fila_de_tds (Soup.find_all (lit "td") tr) = Ok f /\
                        fila_de_tr tr filas = Ok (filas ++ [f])
    | Raise e => fila_de_tr tr filas = Raise e /\ exists arg, e = FloatValueError arg
    end
  else fila_de_tr tr filas = Ok filas.
Proof.
  unfold fila_de_tr. rewrite fila_completa_length.
  destruct (fila_completa tr) eqn:Hc; simpl; [|reflexivity].
  apply Nat.leb_le in Hc.
  destruct (fila_de_tds_superficie _ Hc) as (td7 & H7 & Hsup).
  rewrite (superficie_de_tr_td7 _ _ H7).
  destruct (superficie_de_texto (Soup.get_text [] td7)) as [sup|e] eqn:Hs.
  - destruct Hsup as [f Hf]. exists f. now rewrite Hf.
  - rewrite Hsup. split; [reflexivity|]. now apply superficie_de_texto_Raise in Hs.
Qed.

Lemma for_each_filas `{UnicodeData} (trs : list Soup.node) (filas : list fila) :
  (forall tr, In tr trs -> fila_completa tr = true ->
              sin_error (superficie_de_tr tr) = true) ->
  exists nuevas,
    for_each fila_de_tr trs filas = Ok (filas ++ nuevas) /\
    Forall2 (fun tr f => fila_de_tds (Soup.find_all (lit "td") tr) = Ok f)
            (List.filter fila_completa trs) nuevas.
Proof.
  revert filas. induction trs as [|tr trs IH]; intros filas Hsup.
  - exists []. split; [simpl; now rewrite app_nil_r|constructor].
  - pose proof (fila_de_tr_cases tr filas) as Htr.
    assert (forall x, In x trs -> fila_completa x = true ->
                      sin_error (superficie_de_tr x) = true) as Hrest
        by (intros x Hx; apply Hsup; now right).
    simpl. destruct (fila_completa tr) eqn:Hc.
    + specialize (Hsup tr (or_introl eq_refl) Hc).
      destruct (superficie_de_tr tr); [|discriminate Hsup].
      destruct Htr as (f & Hf & ->). cbn [bind].
      destruct (IH (filas ++ [f]) Hrest) as (nuevas & -> & Hall).
      exists (f :: nuevas). split; [now rewrite <- app_assoc|now constructor].
    + rewrite Htr. cbn [bind]. now apply IH.
Qed.

Lemma for_each_filas_Raise `{UnicodeData} (trs : list Soup.node) (tr : Soup.node) (e : exn) :
  In tr trs -> fila_completa tr = true -> superficie_de_tr tr = Raise e ->
  forall filas, exists arg, for_each fila_de_tr trs filas = Raise (FloatValueError arg).
Proof.
  intros Hin Hc He. induction trs as [|x trs IH]; [destruct Hin|].
  intros filas. simpl.
  pose proof (fila_de_tr_cases x filas) as Hx.
  destruct (fila_completa x) eqn:Hcx.
  - destruct (superficie_de_tr x) as [sup|e'] eqn:Hsx.
    + destruct Hx as (f & _ & ->). cbn [bind].
      destruct Hin as [->|Hin]; [congruence|]. now apply IH.
    + destruct Hx as (-> & arg & ->). cbn [bind]. now exists arg.
  - rewrite Hx. cbn [bind].
    destruct Hin as [->|Hin]; [congruence|]. now apply IH.
Qed.

Lemma una_fila_por_tr_completa_aux `{UnicodeData} (tbody : Soup.node) :
  (forall tr, In tr (Soup.find_all (lit "tr") tbody) -> fila_completa tr = true ->
              sin_error (superficie_de_tr tr) = true) ->
  exists filas,
    filas_de_tbody tbody = Ok filas /\
    Forall2 (fun tr f => fila_de_tds (Soup.find_all (lit "td") tr) = Ok f)
            (List.filter fila_completa (Soup.find_all (lit "tr") tbody)) filas.
Proof.
  intros Hsup. unfold filas_de_tbody.
  destruct (for_each_filas _ [] Hsup) as (nuevas & Hfor & Hall).
  exists nuevas. now split.
Qed.

(** C3, as amended.  When [float] accepts the area of every kept row of a
    table body, the rows of the body give one dictionary for each row of
    twelve cells or more and none for the others, in the order of the rows:
    nothing is sorted and nothing is dropped as a repetition. *)
Theorem una_fila_por_tr_completa `{UnicodeData} (tbody : Soup.node) :
  (forall tr, In tr (Soup.find_all (lit "tr") tbody) -> fila_completa tr = true ->
              sin_error (superficie_de_tr tr) = true) ->
  exists filas,
    filas_de_tbody tbody = Ok filas /\
    Forall2 (fun tr f => fila_de_tds (Soup.find_all (lit "td") tr) = Ok f)
            (List.filter fila_completa (Soup.find_all (lit "tr") tbody)) filas.
Proof. exact (una_fila_por_tr_completa_aux tbody). Qed.

Lemma una_fila_por_tr_completa_witness :
  exists filas,
    @filas_de_tbody unicode_14 Pagina.tbody_incendios = Ok filas /\
    Forall2 (fun tr f => @fila_de_tds unicode_14 (Soup.find_all (lit "td") tr) = Ok f)
            (List.filter fila_completa (Soup.find_all (lit "tr") Pagina.tbody_incendios))
            filas.
Proof.
  apply (@una_fila_por_tr_completa unicode_14 Pagina.tbody_incendios).
  intros tr Hin Hc. vm_compute in Hin.
  destruct Hin as [<-|[<-|[]]]; [vm_compute; reflexivity|discriminate Hc].
Defined.

(** Whenever the rows of a body give a list, it is that of the kept rows,
    in their order. *)
Lemma filas_de_tbody_Ok `{UnicodeData} (tbody : Soup.node) (filas : list fila) :
  filas_de_tbody tbody = Ok filas ->
  Forall2 (fun tr f => fila_de_tds (Soup.find_all (lit "td") tr) = Ok f)
          (List.filter fila_completa (Soup.find_all (lit "tr") tbody)) filas.
Proof.
  intros Hok.
  destruct (una_fila_por_tr_completa_aux tbody) as (filas' & Hf & Hall).
  - intros tr Hin Hc. destruct (superficie_de_tr tr) as [v|e] eqn:Hs; [reflexivity|].
    destruct (for_each_filas_Raise _ tr e Hin Hc Hs []) as [arg Hr].
    unfold filas_de_tbody in Hok. congruence.
  - congruence.
Qed.

(** C3, as stated, fails on a body whose only kept row has the area [s/i]:
    the body has one row of twelve cells, and its rows give no dictionary
    but the exception of [float]. *)
Lemma una_fila_por_tr_counterexample :
  List.filter fila_completa (Soup.find_all (lit "tr") Pagina.tbody_sin_informacion)
  = [Pagina.tr_incendio "s/i"]
  /\ @filas_de_tbody unicode_14 Pagina.tbody_sin_informacion
     = Raise (FloatValueError (lit "s/i")).
Proof. split; vm_compute; reflexivity. Qed.

(** C9.  When the heading, the table and its body are found and some kept
    row has an area text of which, once its [.] are out and its [,] are
    [.], something is left that [float] rejects, [parsear_tabla_incendios]
    raises the [ValueError] of [float]: the call gives no rows at all. *)
Theorem superficie_ilegible_aborta `{UnicodeData}
        (soup h1 tabla_incendios tbody tr : Soup.node) (siguientes : list Soup.node)
        (txt : pystr) :
  buscar_h1 soup = Some (h1, siguientes) ->
  buscar_tabla (tablas_siguientes siguientes) = Some tabla_incendios ->
  Soup.find (lit "tbody") tabla_incendios = Some tbody ->
  In tr (Soup.find_all (lit "tr") tbody) ->
  fila_completa tr = true ->
  superficie_txt_de_tr tr = Some txt ->
  txt <> [] ->
  sin_error (Float.float_ txt) = false ->
  exists arg, parsear_tabla_incendios soup = Raise (FloatValueError arg).
Proof.
  intros Hh1 Htabla Htbody Hin Hc Htxt Hne Hfloat.
  unfold parsear_tabla_incendios. rewrite Hh1, Htabla, Htbody.
  unfold filas_de_tbody.
  unfold superficie_txt_de_tr in Htxt.
  destruct (Soup.find_all (lit "td") tr !! 7%nat) as [td7|] eqn:H7; [|discriminate Htxt].
  injection Htxt as Htxt.
  destruct (Float.float_ txt) as [v|e] eqn:Hf; [discriminate Hfloat|].
  apply (for_each_filas_Raise _ tr e Hin Hc).
  rewrite (superficie_de_tr_td7 _ _ H7). unfold superficie_de_texto.
  rewrite Htxt. destruct txt; [congruence|]. now rewrite Hf.
Qed.

Lemma superficie_ilegible_aborta_witness :
  exists arg,
    @parsear_tabla_incendios unicode_14 Pagina.listado_sin_informacion
    = Raise (FloatValueError arg).
Proof.
  eapply (@superficie_ilegible_aborta unicode_14 Pagina.listado_sin_informacion
            _ _ _ (Pagina.tr_incendio "s/i") _ (lit "s/i")).
  - vm_compute. reflexivity.
  - vm_compute. reflexivity.
  - vm_compute. reflexivity.
  - vm_compute. left. reflexivity.
  - vm_compute. reflexivity.
  - vm_compute. reflexivity.
  - discriminate.
  - vm_compute. reflexivity.
Defined.

(** C9, as stated, fails on a row whose area is [.]: the text of the cell
    is not empty, nothing is left of it once its [.] is taken out, [float]
    rejects the empty text, and yet the listing gives the dictionary of the
    row, with [None] for its area. *)
Lemma superficie_de_un_punto_counterexample :
  fila_completa (Pagina.tr_incendio ".") = true
  /\ Soup.get_text [] <$> (Soup.find_all (lit "td") (Pagina.tr_incendio ".") !! 7%nat)
     = Some (lit ".")
  /\ superficie_txt_de_tr (Pagina.tr_incendio ".") = Some []
  /\ @Float.float_ unicode_14 [] = Raise (FloatValueError [])
  /\ match @parsear_tabla_incendios unicode_14 MasPaginas.listado_punto with
     | Ok filas => Some (map superficie_ha filas)
     | Raise _ => None
     end = Some [None].
Proof. repeat split; vm_compute; reflexivity. Qed.

(** ** The area and the date of a row *)


Lemma fecha_de_texto_16_nov `{U : UnicodeData} :
  ascii_digits U ->
  fecha_de_texto (lit "16-nov-2025 18:36")
  = Ok (Some (Datetime.mk_datetime 2025 11 16 18 36)).
Proof.
  intros HU.
  repeat (cbv -[todecimal]; rewrite HU by reflexivity).
  cbv -[todecimal]. reflexivity.
Qed.

Lemma find_run_ascii (c : char) (runs : list N) :
  (c < 128)%N -> Forall (fun z => 128 <= z)%N runs ->
  List.find (fun z => Str.in_range z (z + 9) c) runs = None.
Proof.
  intros Hc Hruns. induction Hruns as [|z runs Hz _ IH]; [reflexivity|].
  simpl. unfold Str.in_range at 1.
  destruct (z <=? c)%N eqn:Hle; [apply N.leb_le in Hle; lia|exact IH].
Qed.

(** The table of Unicode 14.0 is one of those the parsers are proved
    for. *)
Lemma unicode_14_ascii : ascii_digits unicode_14.
Proof.
  intros c Hc. simpl. unfold ucd_todecimal.
  destruct (Str.in_range 48 57 c); [reflexivity|].
  rewrite find_run_ascii; [reflexivity|exact Hc|].
  unfold decimal_runs. repeat constructor; lia.
Qed.

(** The date of a text never raises: ["16-nov-2025 18:36"] gives the
    [datetime] 2025-11-16 18:36, ["garbage"] gives [None], every text gives a
    value, and every text [strptime] rejects gives [None]. *)
Lemma fecha_de_texto_nunca_falla `{U : UnicodeData} :
  ascii_digits U ->
  fecha_de_texto (lit "16-nov-2025 18:36")
  = Ok (Some (Datetime.mk_datetime 2025 11 16 18 36))
  /\ fecha_de_texto (lit "garbage") = Ok None
  /\ (forall fecha_raw, exists v, fecha_de_texto fecha_raw = Ok v)
  /\ (forall fecha_raw e, Datetime.strptime fecha_raw = Raise e ->
                          fecha_de_texto fecha_raw = Ok None).
Proof.
  intros HU. split; [now apply fecha_de_texto_16_nov|]. split; [|split].
  - repeat (cbv -[todecimal]; rewrite ?HU by reflexivity). reflexivity.
  - apply fecha_de_texto_Ok.
  - intros fecha_raw e He. unfold fecha_de_texto.
    destruct fecha_raw; [reflexivity|]. rewrite He.
    now rewrite (strptime_Raise _ _ He).
Qed.

(** C5.  The date never makes a row fail: a row of twelve cells or more
    whose area can be read gives its dictionary whatever the text of its
    second cell, the date cell.  That text is [fecha_raw], and [fecha] is
    what [strptime] makes of it: for ["16-nov-2025 18:36"] the [datetime]
    2025-11-16 18:36, and [None] for ["garbage"], for every text [strptime]
    rejects, and for the empty text. *)
Theorem fecha_de_la_fila `{U : UnicodeData} (tds : list Soup.node) (td1 td7 : Soup.node) :
  ascii_digits U ->
  (12 <= length tds)%nat ->
  tds !! 1%nat = Some td1 ->
  tds !! 7%nat = Some td7 ->
  sin_error (superficie_de_texto (Soup.get_text [] td7)) = true ->
  exists f,
    fila_de_tds tds = Ok f
    /\ fecha_raw f = Soup.get_text [] td1
    /\ (fecha_raw f = lit "16-nov-2025 18:36" ->
        fecha f = Some (Datetime.mk_datetime 2025 11 16 18 36))
    /\ (fecha_raw f = lit "garbage" -> fecha f = None)
    /\ (forall e, Datetime.strptime (fecha_raw f) = Raise e -> fecha f = None)
    /\ (forall dt, fecha_raw f <> [] -> Datetime.strptime (fecha_raw f) = Ok dt ->
                   fecha f = Some dt)
    /\ (fecha_raw f = [] -> fecha f = None).
Proof.
  intros HU Hlen H1 H7 Hsup.
  destruct (fila_de_tds_superficie tds Hlen) as (td7' & H7' & Hf).
  assert (td7' = td7) as -> by congruence. clear H7'.
  destruct (superficie_de_texto (Soup.get_text [] td7)) as [sup|e]; [|discriminate Hsup].
  destruct Hf as [f Hf]. exists f. split; [exact Hf|].
  destruct (fila_de_tds_Ok _ _ Hf) as (td0 & td1' & td7' & _ & H1' & _ & _ & Hraw & Hfecha & _).
  assert (td1' = td1) as -> by congruence. clear H1'.
  split; [exact Hraw|].
  destruct (fecha_de_texto_nunca_falla HU) as (H16 & Hg & _ & Hrej).
  split; [|split; [|split; [|split]]].
  - intros Heq. rewrite Heq, H16 in Hfecha. now injection Hfecha as <-.
  - intros Heq. rewrite Heq, Hg in Hfecha. now injection Hfecha as <-.
  - intros e He. rewrite (Hrej _ _ He) in Hfecha. now injection Hfecha as <-.
  - intros dt Hne Hdt. unfold fecha_de_texto in Hfecha. rewrite Hdt in Hfecha.
    destruct (fecha_raw f); [congruence|]. now injection Hfecha as <-.
  - intros Heq. rewrite Heq in Hfecha. now injection Hfecha as <-.
Qed.

Lemma fecha_de_la_fila_witness :
  exists f,
    @fila_de_tds unicode_14 (Soup.find_all (lit "td") (Pagina.tr_incendio "1.234,5")) = Ok f
    /\ fecha_raw f = lit "16-nov-2025 18:36"
    /\ fecha f = Some (Datetime.mk_datetime 2025 11 16 18 36).
Proof.
  destruct (@fecha_de_la_fila unicode_14
              (Soup.find_all (lit "td") (Pagina.tr_incendio "1.234,5"))
              (Pagina.td "16-nov-2025 18:36") (Pagina.td "1.234,5")
              unicode_14_ascii)
    as (f & Hf & Hraw & H16 & _).
  - vm_compute. lia.
  - vm_compute. reflexivity.
  - vm_compute. reflexivity.
  - vm_compute. reflexivity.
  - exists f. split; [exact Hf|].
    assert (fecha_raw f = lit "16-nov-2025 18:36") as Heq
        by (rewrite Hraw; vm_compute; reflexivity).
    split; [exact Heq|]. exact (H16 Heq).
Defined.

(** ** The alert of a row *)

Lemma find_primero {A : Type} (p : A -> bool) (l : list A) (x : A) :
  List.find p l = Some x ->
  exists antes despues,
    l = antes ++ x :: despues /\ p x = true /\ forall y, In y antes -> p y = false.
Proof.
  induction l as [|a l IH]; [discriminate|].
  simpl. destruct (p a) eqn:Hpa.
  - intros [= ->]. exists [], l. repeat split; [exact Hpa|intros y []].
  - intros Hf. destruct (IH Hf) as (antes & despues & -> & Hx & Hantes).
    exists (a :: antes), despues. repeat split; [exact Hx|].
    intros y [<-|Hy]; [exact Hpa|now apply Hantes].
Qed.




(** ** The blocks of the detail page *)

Lemma find_element_None (marca : pystr) (soup : Soup.node) :
  (forall n, In n (Soup.descendants soup) -> celda_marcada marca n = false) ->
  Soup.find_element (lit "td") (Soup.truthy_and_contains marca) soup = None.
Proof.
  intros Hsin. unfold Soup.find_element. apply find_None.
  intros el Hel. apply Hsin. unfold Soup.descendants. now apply in_map.
Qed.

(** Without its marker cell a block leaves [datos] as it is. *)
Lemma bloque_sin_celda `{UnicodeData} (marca : pystr)
      (cuerpo : Soup.node -> gmap pystr value -> result (gmap pystr value))
      (soup : Soup.node) (datos : gmap pystr value) :
  (forall n, In n (Soup.descendants soup) -> celda_marcada marca n = false) ->
  bloque marca cuerpo soup datos = Ok datos.
Proof. intros Hsin. unfold bloque. now rewrite find_element_None. Qed.

Lemma for_each_fuera {A : Type} (body : A -> gmap pystr value -> result (gmap pystr value))
      (claves : list pystr) :
  (forall x d d', body x d = Ok d' ->
                  forall k, ~ In k claves -> d' !! k = d !! k) ->
  forall l d d', for_each body l d = Ok d' ->
                 forall k, ~ In k claves -> d' !! k = d !! k.
Proof.
  intros Hbody l. induction l as [|x l IH]; intros d d' Hfor k Hk.
  - now injection Hfor as <-.
  - simpl in Hfor. destruct (body x d) as [d1|e] eqn:Hx; [|discriminate Hfor].
    cbn [bind] in Hfor. rewrite (IH _ _ Hfor k Hk). now apply (Hbody x d).
Qed.

Lemma bloque_fuera `{UnicodeData} (marca : pystr)
      (cuerpo : Soup.node -> gmap pystr value -> result (gmap pystr value))
      (claves : list pystr) (soup : Soup.node) (datos datos' : gmap pystr value) :
  (forall x d d', cuerpo x d = Ok d' ->
                  forall k, ~ In k claves -> d' !! k = d !! k) ->
  bloque marca cuerpo soup datos = Ok datos' ->
  forall k, ~ In k claves -> datos' !! k = datos !! k.
Proof.
  intros Hcuerpo. unfold bloque. intros Hb k Hk.
  repeat case_match; try discriminate Hb; try (now injection Hb as <-).
  now apply (for_each_fuera cuerpo claves Hcuerpo _ _ _ Hb).
Qed.

Lemma insert_fuera (claves : list pystr) (c k : pystr) (v : value) (d : gmap pystr value) :
  In c claves -> ~ In k claves -> <[c := v]> d !! k = d !! k.
Proof. intros Hc Hk. apply lookup_insert_ne. intros ->. contradiction. Qed.

(** The coordinates block sets no key but its six. *)
Lemma fila_coordenadas_fuera `{UnicodeData} (tr : Soup.node) (d d' : gmap pystr value) :
  fila_coordenadas tr d = Ok d' ->
  forall k, ~ In k claves_coordenadas -> d' !! k = d !! k.
Proof.
  unfold fila_coordenadas. intros Hf k Hk.
  destruct (length (Soup.find_all (lit "td") tr) <? 4)%nat; [now injection Hf as <-|].
  do 4 bind_inv Hf.
  repeat case_match; injection Hf as <-;
    rewrite ?(insert_fuera claves_coordenadas) by (assumption || (simpl; tauto));
    reflexivity.
Qed.

Lemma valor_en_valores (m : gmap pystr pystr) (k v : pystr) :
  m !! k = Some v -> In v (snd <$> map_to_list m).
Proof.
  intros Hm. apply list_elem_of_In, list_elem_of_fmap.
  exists (k, v). split; [reflexivity|]. now apply elem_of_map_to_list.
Qed.

(** The conditions block sets no key but the values of [mapeo]. *)
Lemma fila_condiciones_fuera `{UnicodeData} (tr : Soup.node) (d d' : gmap pystr value) :
  fila_condiciones tr d = Ok d' ->
  forall k, ~ In k claves_condiciones -> d' !! k = d !! k.
Proof.
  unfold fila_condiciones. intros Hf k Hk.
  destruct (length (Soup.find_all (lit "td") tr) <? 2)%nat; [now injection Hf as <-|].
  do 2 bind_inv Hf.
  destruct (mapeo !! Soup.get_text [] a) as [clave|] eqn:Hm;
    injection Hf as <-; [|reflexivity].
  apply (insert_fuera claves_condiciones); [|exact Hk].
  exact (valor_en_valores mapeo _ _ Hm).
Qed.

Lemma claves_disjuntas (k : pystr) :
  In k claves_coordenadas -> In k claves_condiciones -> False.
Proof.
  intros Hc Hm. vm_compute in Hc, Hm.
  repeat (destruct Hc as [<-|Hc];
          [repeat (destruct Hm as [Hm|Hm]; [discriminate Hm|]); exact Hm|]).
  exact Hc.
Qed.

(** C8.  A page with neither marker cell gives the empty dictionary and no
    exception.  Each block is on its own: without the cell of the
    coordinates the result is that of the conditions block alone and has
    none of the six keys of the coordinates; without the cell of the
    conditions the result is that of the coordinates block alone and has
    none of the keys of [mapeo]. *)
Theorem ficha_sin_celdas `{UnicodeData} (soup : Soup.node) :
  (sin_celda Coordenadas_operativas soup -> sin_celda CONDICIONES soup ->
   parsear_ficha_incendio soup = Ok ∅)
  /\ (sin_celda Coordenadas_operativas soup ->
      parsear_ficha_incendio soup = bloque_condiciones soup ∅
      /\ forall datos k, parsear_ficha_incendio soup = Ok datos ->
                         In k claves_coordenadas -> datos !! k = None)
  /\ (sin_celda CONDICIONES soup ->
      parsear_ficha_incendio soup = bloque_coordenadas soup ∅
      /\ forall datos k, parsear_ficha_incendio soup = Ok datos ->
                         In k claves_condiciones -> datos !! k = None).
Proof.
  unfold parsear_ficha_incendio, bloque_coordenadas, bloque_condiciones.
  split; [|split].
  - intros HA HB. rewrite (bloque_sin_celda _ _ _ _ HA). cbn [bind].
    now apply bloque_sin_celda.
  - intros HA. rewrite (bloque_sin_celda _ _ _ _ HA). cbn [bind].
    split; [reflexivity|]. intros datos k Hd Hk.
    rewrite (bloque_fuera _ _ claves_condiciones _ _ _ fila_condiciones_fuera Hd k).
    + apply lookup_empty.
    + intros Hm. exact (claves_disjuntas k Hk Hm).
  - intros HB.
    assert (forall r : result (gmap pystr value),
              (let! datos := r in bloque CONDICIONES fila_condiciones soup datos) = r) as Hr.
    { intros [d|e]; cbn [bind]; [now apply bloque_sin_celda|reflexivity]. }
    rewrite Hr. split; [reflexivity|]. intros datos k Hd Hk.
    rewrite (bloque_fuera _ _ claves_coordenadas _ _ _ fila_coordenadas_fuera Hd k).
    + apply lookup_empty.
    + intros Hc. exact (claves_disjuntas k Hc Hk).
Qed.

Lemma ficha_sin_celdas_witness :
  @parsear_ficha_incendio unicode_14 Pagina.ficha_sin_tablas = Ok ∅.
Proof.
  apply (proj1 (@ficha_sin_celdas unicode_14 Pagina.ficha_sin_tablas)).
  - intros n Hn. vm_compute in Hn.
    repeat (destruct Hn as [<-|Hn]; [reflexivity|]). contradiction.
  - intros n Hn. vm_compute in Hn.
    repeat (destruct Hn as [<-|Hn]; [reflexivity|]). contradiction.
Defined.

(** C10.  When the marker cell of a block is found and no [tbody] is among
    the descendants of the table around it, the block leaves [datos] as it
    is and raises nothing; so does each of the two blocks, and a page where
    both are so gives the empty dictionary. *)
Theorem tabla_de_ficha_sin_tbody `{UnicodeData} (soup : Soup.node) :
  (forall datos td tabla,
      Soup.find_element (lit "td") (Soup.truthy_and_contains Coordenadas_operativas) soup
      = Some td ->
      Soup.find_parent (lit "table") td = Some tabla ->
      (forall n, In n (Soup.descendants tabla) -> Soup.is_tag (lit "tbody") n = false) ->
      bloque_coordenadas soup datos = Ok datos)
  /\ (forall datos td tabla,
      Soup.find_element (lit "td") (Soup.truthy_and_contains CONDICIONES) soup
      = Some td ->
      Soup.find_parent (lit "table") td = Some tabla ->
      (forall n, In n (Soup.descendants tabla) -> Soup.is_tag (lit "tbody") n = false) ->
      bloque_condiciones soup datos = Ok datos)
  /\ (forall td tabla td' tabla',
      Soup.find_element (lit "td") (Soup.truthy_and_contains Coordenadas_operativas) soup
      = Some td ->
      Soup.find_parent (lit "table") td = Some tabla ->
      (forall n, In n (Soup.descendants tabla) -> Soup.is_tag (lit "tbody") n = false) ->
      Soup.find_element (lit "td") (Soup.truthy_and_contains CONDICIONES) soup
      = Some td' ->
      Soup.find_parent (lit "table") td' = Some tabla' ->
      (forall n, In n (Soup.descendants tabla') -> Soup.is_tag (lit "tbody") n = false) ->
      parsear_ficha_incendio soup = Ok ∅).
Proof.
  assert (forall marca cuerpo datos td tabla,
      Soup.find_element (lit "td") (Soup.truthy_and_contains marca) soup = Some td ->
      Soup.find_parent (lit "table") td = Some tabla ->
      (forall n, In n (Soup.descendants tabla) -> Soup.is_tag (lit "tbody") n = false) ->
      bloque marca cuerpo soup datos = Ok datos) as Hbloque.
  { intros marca cuerpo datos td tabla Htd Htabla Hsin. unfold bloque.
    rewrite Htd, Htabla. unfold Soup.find. now rewrite find_None. }
  split; [|split].
  - intros datos td tabla. apply Hbloque.
  - intros datos td tabla. apply Hbloque.
  - intros td tabla td' tabla' Htd Htabla Hsin Htd' Htabla' Hsin'.
    unfold parsear_ficha_incendio, bloque_coordenadas, bloque_condiciones.
    rewrite (Hbloque _ _ _ _ _ Htd Htabla Hsin). cbn [bind].
    exact (Hbloque _ _ _ _ _ Htd' Htabla' Hsin').
Qed.

Lemma tabla_de_ficha_sin_tbody_witness :
  @parsear_ficha_incendio unicode_14 Pagina.ficha_sin_tbody = Ok ∅.
Proof.
  eapply (proj2 (proj2 (@tabla_de_ficha_sin_tbody unicode_14 Pagina.ficha_sin_tbody))).
  - vm_compute. reflexivity.
  - vm_compute. reflexivity.
  - intros n Hn. vm_compute in Hn.
    repeat (destruct Hn as [<-|Hn]; [reflexivity|]). contradiction.
  - vm_compute. reflexivity.
  - vm_compute. reflexivity.
  - intros n Hn. vm_compute in Hn.
    repeat (destruct Hn as [<-|Hn]; [reflexivity|]). contradiction.
Defined.

(** ** Latitude and longitude *)

(** Without a match of the pattern, [lat] and [lon] stay [None] and nothing
    is raised. *)
Lemma lat_lon_de_onclick_sin_patron `{UnicodeData} (onclick : pystr) :
  Re.search linkMapa_re onclick = None ->
  lat_lon_de_onclick onclick = Ok (None, None).
Proof. intros Hs. unfold lat_lon_de_onclick. now rewrite Hs. Qed.

(** [linkMapa(this, -33.45, -70.66)] gives the two numbers. *)
Lemma lat_lon_de_onclick_ejemplo `{UnicodeData} :
  lat_lon_de_onclick (lit "linkMapa(this, -33.45, -70.66)")
  = Ok (Some (Float.of_decimal true 3345 (-2)), Some (Float.of_decimal true 7066 (-2))).
Proof. vm_compute. reflexivity. Qed.

(** C1, at the input where it fails.  The groups of the pattern take any
    run of digits, [-] and [.]: on [linkMapa(this, -, -)] the pattern is
    found, [float("-")] raises its [ValueError], and nothing catches it, in
    the step itself and in [parsear_ficha_incendio] on a page whose
    operative cell has that [onclick]. *)
Theorem lat_lon_de_onclick_guiones `{UnicodeData} :
  lat_lon_de_onclick (lit "linkMapa(this, -, -)") = Raise (FloatValueError (lit "-"))
  /\ parsear_ficha_incendio (Pagina.ficha "linkMapa(this, -, -)")
     = Raise (FloatValueError (lit "-")).
Proof. split; vm_compute; reflexivity. Qed.

(** ** A whole listing *)

(** The listing with a row of twelve cells and a row of three gives the one
    dictionary of the first. *)
Lemma parsear_tabla_incendios_listado `{U : UnicodeData} :
  ascii_digits U ->
  parsear_tabla_incendios Pagina.listado = Ok [Pagina.fila_ejemplo].
Proof.
  intros HU.
  repeat (cbv -[todecimal]; rewrite ?HU by reflexivity).
  reflexivity.
Qed.

(** ** Texts without blanks at their ends *)

Lemma dropwhile_recortado (p : char -> bool) (s : pystr) :
  match Str.dropwhile p s with
  | [] => True
  | c :: _ => p c = false
  end.
Proof.
  induction s as [|c s IH]; simpl; [exact I|].
  destruct (p c) eqn:Hc; [exact IH|exact Hc].
Qed.

Lemma dropwhile_id (p : char -> bool) (s : pystr) :
  match s with [] => True | c :: _ => p c = false end ->
  Str.dropwhile p s = s.
Proof. destruct s as [|c s]; simpl; [reflexivity|]. now intros ->. Qed.

Lemma dropwhile_suffix (p : char -> bool) (s : pystr) :
  exists pre, s = pre ++ Str.dropwhile p s.
Proof.
  induction s as [|c s [pre IH]]; simpl; [now exists []|].
  destruct (p c); [|now exists []].
  exists (c :: pre). simpl. now f_equal.
Qed.

Lemma last_rev_head (s : pystr) (c d : char) :
  List.last (rev (c :: s)) d = c.
Proof. simpl. apply last_last. Qed.

Lemma strip_recortado (s : pystr) : recortado (Str.strip s) = true.
Proof.
  unfold Str.strip, Str.rstrip, Str.lstrip.
  set (l := Str.dropwhile Str.isspace s).
  pose proof (dropwhile_recortado Str.isspace s) as Hl. fold l in Hl.
  pose proof (dropwhile_recortado Str.isspace (rev l)) as Hr.
  destruct (dropwhile_suffix Str.isspace (rev l)) as [pre Hpre].
  destruct (Str.dropwhile Str.isspace (rev l)) as [|z r] eqn:Hd; [reflexivity|].
  (* rev (z :: r) is a prefix of l *)
  assert (l = rev (z :: r) ++ rev pre) as Hlr.
  { rewrite <- rev_app_distr, <- Hpre. now rewrite rev_involutive. }
  unfold recortado.
  destruct (rev (z :: r)) as [|c t] eqn:Hrev.
  { apply (f_equal (@length _)) in Hrev. rewrite length_rev in Hrev. discriminate. }
  rewrite <- Hrev. rewrite last_rev_head, Hr.
  rewrite Hlr in Hl. simpl in Hl. now rewrite Hl.
Qed.

Lemma last_default (s : pystr) (d d' : char) : s <> [] -> List.last s d = List.last s d'.
Proof.
  induction s as [|c s IH]; [congruence|]. intros _.
  destruct s as [|c' s]; [reflexivity|]. apply IH. discriminate.
Qed.

Lemma last_app_r (a b : pystr) (d : char) : b <> [] -> List.last (a ++ b) d = List.last b d.
Proof.
  intros Hb. induction a as [|c a IH]; [reflexivity|].
  simpl. destruct (a ++ b) eqn:Hab; [|exact IH].
  exfalso. apply app_eq_nil in Hab. tauto.
Qed.

Lemma rev_last (s : pystr) (d : char) :
  s <> [] -> exists r, rev s = List.last s d :: r.
Proof.
  intros Hs. exists (rev (removelast s)).
  rewrite (app_removelast_last d Hs) at 1.
  now rewrite rev_app_distr.
Qed.

Lemma recortado_strip (s : pystr) : recortado s = true -> Str.strip s = s.
Proof.
  destruct s as [|c t]; [reflexivity|].
  unfold recortado. intros Hr. apply andb_prop in Hr as [Hc Hz].
  apply negb_true_iff in Hc, Hz.
  unfold Str.strip, Str.lstrip, Str.rstrip.
  rewrite (dropwhile_id Str.isspace (c :: t)) by exact Hc.
  destruct (rev_last (c :: t) c ltac:(discriminate)) as [r Hrev].
  rewrite Hrev, dropwhile_id by exact Hz.
  rewrite <- Hrev. apply rev_involutive.
Qed.

(** [strip] twice is [strip] once. *)
Lemma strip_strip (s : pystr) : Str.strip (Str.strip s) = Str.strip s.
Proof. apply recortado_strip, strip_recortado. Qed.

Lemma recortado_app (a m b : pystr) :
  a <> [] -> b <> [] -> recortado a = true -> recortado b = true ->
  recortado (a ++ m ++ b) = true.
Proof.
  intros Ha Hb Hra Hrb.
  destruct a as [|c a]; [congruence|]. destruct b as [|z b]; [congruence|].
  unfold recortado in *. simpl app.
  apply andb_prop in Hra as [Hc _]. apply andb_prop in Hrb as [_ Hz].
  rewrite Hc. cbn [andb].
  rewrite (app_assoc a m (z :: b)).
  change (c :: (a ++ m) ++ z :: b) with ((c :: a ++ m) ++ z :: b).
  rewrite last_app_r by done.
  now rewrite (last_default (z :: b) c z) by done.
Qed.

Lemma join_recortado (sep : pystr) (parts : list pystr) :
  Forall (fun p => p <> [] /\ recortado p = true) parts ->
  recortado (Str.join sep parts) = true
  /\ (parts <> [] -> Str.join sep parts <> []).
Proof.
  induction 1 as [|p parts [Hp Hr] Hall [IH1 IH2]]; [split; [reflexivity|intros Hn; now destruct Hn]|].
  destruct parts as [|q parts].
  - simpl. split; [exact Hr|now intros _].
  - change (Str.join sep (p :: q :: parts)) with (p ++ sep ++ Str.join sep (q :: parts)).
    split.
    + apply recortado_app; [exact Hp|apply IH2; discriminate|exact Hr|exact IH1].
    + intros _. destruct p; [congruence|discriminate].
Qed.

(** The text of a node has no blank at its ends, whatever the separator. *)
Lemma get_text_recortado (sep : pystr) (n : Soup.node) :
  recortado (Soup.get_text sep n) = true.
Proof.
  unfold Soup.get_text. apply join_recortado.
  apply List.Forall_forall. intros p Hp. apply filter_In in Hp as [Hin Hne].
  apply in_map_iff in Hin as (s & <- & _). split.
  - intros Hnil. rewrite Hnil in Hne. discriminate Hne.
  - apply strip_recortado.
Qed.

(** ** More on the rows of the listing *)

(** The dictionary of a row, field by field. *)
Lemma fila_de_tds_campos `{UnicodeData} (tds : list Soup.node) (f : fila) :
  fila_de_tds tds = Ok f ->
  exists td0 td1 td2 td3 td4 td5 td6 td7 td8 td9 td11,
    (tds !! 0%nat = Some td0 /\ tds !! 1%nat = Some td1 /\ tds !! 2%nat = Some td2
     /\ tds !! 3%nat = Some td3 /\ tds !! 4%nat = Some td4 /\ tds !! 5%nat = Some td5
     /\ tds !! 6%nat = Some td6 /\ tds !! 7%nat = Some td7 /\ tds !! 8%nat = Some td8
     /\ tds !! 9%nat = Some td9 /\ tds !! 11%nat = Some td11)
    /\ f = mk_fila (alerta td0).1 (alerta td0).2 (Soup.get_text [] td1) (fecha f)
                   (Soup.get_text [] td2) (Soup.get_text [] td3) (Soup.get_text [] td4)
                   (Soup.get_text [] td5) (Soup.get_text (lit " ") td6) (superficie_ha f)
                   (url td8) (url td9) (url td11).
Proof.
  unfold fila_de_tds. intros Hf.
  bind_inv Hf. destruct (alerta a) as [titulo codigo] eqn:Ha.
  do 12 bind_inv Hf.
  injection Hf as <-. simpl.
  repeat match goal with E : item _ _ = Ok _ |- _ => apply item_Some in E end.
  do 11 eexists. split; [repeat split; eassumption|].
  now rewrite Ha.
Qed.

Lemma url_enlace_de (td : Soup.node) : enlace_de td (url td).
Proof.
  unfold url, enlace_de.
  destruct (Soup.find (lit "a") td) as [a|] eqn:Ha; [|now left].
  destruct (Soup.attr (lit "href") a) as [href|] eqn:Hh; [now exists a, href|].
  right. now exists a.
Qed.

Lemma startswith_app (pre s : pystr) : Str.startswith pre (pre ++ s) = true.
Proof.
  induction pre as [|c pre IH]; [reflexivity|].
  simpl. now rewrite N.eqb_refl, IH.
Qed.

(** X1.  The six text fields of a dictionary of [filas] have no blank at
    their ends: [strip] leaves each of them as it is. *)
Theorem textos_de_la_fila_recortados `{UnicodeData} (tds : list Soup.node) (f : fila) :
  fila_de_tds tds = Ok f ->
  Forall (fun s => Str.strip s = s)
         [fecha_raw f; region f; nombre f; ambito f; comuna f; estado f].
Proof.
  intros Hf.
  destruct (fila_de_tds_campos _ _ Hf)
    as (td0 & td1 & td2 & td3 & td4 & td5 & td6 & td7 & td8 & td9 & td11 & _ & ->).
  simpl. repeat constructor; apply recortado_strip, get_text_recortado.
Qed.

Lemma textos_de_la_fila_recortados_witness :
  Forall (fun s => Str.strip s = s)
         [fecha_raw Pagina.fila_ejemplo; region Pagina.fila_ejemplo;
          nombre Pagina.fila_ejemplo; ambito Pagina.fila_ejemplo;
          comuna Pagina.fila_ejemplo; estado Pagina.fila_ejemplo].
Proof.
  apply (@textos_de_la_fila_recortados unicode_14
           (Soup.find_all (lit "td") (Pagina.tr_incendio "1.234,5"))).
  vm_compute. reflexivity.
Defined.

(** X2.  The three link fields of a dictionary of [filas] come from the
    cells 8, 9 and 11: each is the site origin followed by the [href] of the
    first [a] of its cell, and [None] when the cell has no [a] or its first
    [a] has no [href]; a link that is there starts with the site origin. *)
Theorem enlaces_de_la_fila `{UnicodeData} (tds : list Soup.node) (f : fila) :
  fila_de_tds tds = Ok f ->
  exists td8 td9 td11,
    tds !! 8%nat = Some td8 /\ tds !! 9%nat = Some td9 /\ tds !! 11%nat = Some td11
    /\ enlace_de td8 (url_poligono f)
    /\ enlace_de td9 (url_ficha f)
    /\ enlace_de td11 (url_archivos f)
    /\ forall u, In (Some u) [url_poligono f; url_ficha f; url_archivos f] ->
                 Str.startswith SIDCO_BASE u = true.
Proof.
  intros Hf.
  destruct (fila_de_tds_campos _ _ Hf)
    as (td0 & td1 & td2 & td3 & td4 & td5 & td6 & td7 & td8 & td9 & td11 & Htds & ->).
  exists td8, td9, td11. cbn [url_poligono url_ficha url_archivos].
  repeat split; try tauto; try apply url_enlace_de.
  intros u Hu.
  assert (forall td, url td = Some u -> Str.startswith SIDCO_BASE u = true) as Hurl.
  { intros td Htd. pose proof (url_enlace_de td) as He. rewrite Htd in He.
    destruct He as (a & href & _ & _ & ->). apply startswith_app. }
  destruct Hu as [Hu|[Hu|[Hu|[]]]]; eapply Hurl; exact Hu.
Qed.

Lemma enlaces_de_la_fila_witness :
  exists td8 td9 td11,
    Soup.find_all (lit "td") (Pagina.tr_incendio "1.234,5") !! 8%nat = Some td8
    /\ Soup.find_all (lit "td") (Pagina.tr_incendio "1.234,5") !! 9%nat = Some td9
    /\ Soup.find_all (lit "td") (Pagina.tr_incendio "1.234,5") !! 11%nat = Some td11
    /\ enlace_de td8 (url_poligono Pagina.fila_ejemplo)
    /\ enlace_de td9 (url_ficha Pagina.fila_ejemplo)
    /\ enlace_de td11 (url_archivos Pagina.fila_ejemplo)
    /\ forall u, In (Some u) [url_poligono Pagina.fila_ejemplo;
                              url_ficha Pagina.fila_ejemplo;
                              url_archivos Pagina.fila_ejemplo] ->
                 Str.startswith SIDCO_BASE u = true.
Proof.
  apply (@enlaces_de_la_fila unicode_14
           (Soup.find_all (lit "td") (Pagina.tr_incendio "1.234,5"))).
  vm_compute. reflexivity.
Defined.

Lemma item_insert_ne {A : Type} (l : list A) (i j : nat) (x : A) :
  i <> j -> item (<[i := x]> l) j = item l j.
Proof. intros Hij. unfold item. now rewrite list_lookup_insert_ne. Qed.

Lemma item_app_lt {A : Type} (l l' : list A) (i : nat) :
  (i < length l)%nat -> item (l ++ l') i = item l i.
Proof. intros Hi. unfold item. now rewrite lookup_app_l. Qed.

(** X3.  The dictionary of a row of twelve cells or more does not depend on
    the cell 10 nor on the cells after the twelfth. *)
Theorem celdas_sin_uso `{UnicodeData} (tds otras : list Soup.node) (x : Soup.node) :
  (12 <= length tds)%nat ->
  fila_de_tds (<[10%nat := x]> tds ++ otras) = fila_de_tds tds.
Proof.
  intros Hlen. unfold fila_de_tds.
  rewrite !item_app_lt by (rewrite length_insert; lia).
  now rewrite !item_insert_ne by lia.
Qed.

Lemma celdas_sin_uso_witness :
  @fila_de_tds unicode_14
    (<[10%nat := Pagina.td "otra cosa"]>
       (Soup.find_all (lit "td") (Pagina.tr_incendio "1.234,5")) ++ [Pagina.td "de mas"])
  = @fila_de_tds unicode_14 (Soup.find_all (lit "td") (Pagina.tr_incendio "1.234,5")).
Proof.
  apply (@celdas_sin_uso unicode_14). vm_compute. lia.
Defined.

(** ** More on the area *)

Lemma replace_char_nil (c : char) (s : pystr) :
  Str.replace [c] [] s = List.filter (fun x => negb (c =? x)%N) s.
Proof.
  unfold Str.replace. induction s as [|x s IH]; [reflexivity|].
  cbn -[N.eqb]. destruct (c =? x)%N; cbn -[N.eqb]; now rewrite IH.
Qed.

Lemma replace_char_char (c d : char) (s : pystr) :
  Str.replace [c] [d] s = map (fun x => if (c =? x)%N then d else x) s.
Proof.
  unfold Str.replace. induction s as [|x s IH]; [reflexivity|].
  cbn -[N.eqb]. destruct (c =? x)%N; cbn -[N.eqb]; now rewrite IH.
Qed.

Lemma sin_puntos_sin_puntos (s : pystr) : sin_puntos (sin_puntos s) = sin_puntos s.
Proof.
  unfold sin_puntos. induction s as [|x s IH]; [reflexivity|].
  cbn [List.filter]. destruct (46 =? x)%N eqn:Hx; cbn [negb List.filter]; [exact IH|].
  rewrite Hx. cbn [negb]. now rewrite IH.
Qed.

Lemma sin_puntos_nil (s : pystr) :
  sin_puntos s = [] <-> forallb (fun c => (46 =? c)%N) s = true.
Proof.
  unfold sin_puntos. induction s as [|x s IH]; [easy|].
  cbn [List.filter forallb]. destruct (46 =? x)%N; cbn [negb andb]; [exact IH|].
  split; discriminate.
Qed.

(** The text [float] gets for an area: that of the cell without its [.] and
    with [.] for each [,]. *)
Lemma superficie_txt (texto : pystr) :
  Str.replace (lit ",") (lit ".") (Str.replace (lit ".") [] texto)
  = map (fun x => if (44 =? x)%N then 46%N else x) (sin_puntos texto).
Proof.
  change (lit ",") with [44%N]. change (lit ".") with [46%N].
  now rewrite replace_char_nil, replace_char_char.
Qed.

(** X4.  The [.] of an area text count for nothing: the area is that of the
    text without them (so ["12.5"] reads as 125), and it is [None] exactly
    when the text has nothing but [.]. *)
Theorem puntos_de_la_superficie `{UnicodeData} (texto : pystr) :
  superficie_de_texto (sin_puntos texto) = superficie_de_texto texto
  /\ (superficie_de_texto texto = Ok None
      <-> forallb (fun c => (46 =? c)%N) texto = true).
Proof.
  unfold superficie_de_texto. rewrite !superficie_txt, sin_puntos_sin_puntos.
  split; [reflexivity|].
  rewrite <- sin_puntos_nil.
  destruct (sin_puntos texto) as [|c s]; [easy|].
  cbn [map]. split; [|discriminate].
  destruct (Float.float_ _); discriminate.
Qed.



(** ** The choice of the table *)

Lemma buscar_tabla_find (tablas : list Soup.node) :
  buscar_tabla tablas = List.find encabezados_fecha_region tablas.
Proof. induction tablas as [|t l IH]; [reflexivity|]. simpl. now rewrite IH. Qed.

(** X5.  When the heading is found and no table of class [tabla] after it
    has a [thead] with both header texts, [parsear_tabla_incendios] raises
    the [ValueError] of the missing table; the tables before the heading
    are not looked at. *)
Theorem sin_tabla_ValueError `{UnicodeData} (soup h1 : Soup.node) (siguientes : list Soup.node) :
  buscar_h1 soup = Some (h1, siguientes) ->
  (forall t, In t siguientes -> Soup.is_tag (lit "table") t = true ->
             Soup.has_class (lit "tabla") t = true ->
             encabezados_fecha_region t = false) ->
  parsear_tabla_incendios soup = Raise (ValueError msg_sin_tabla).
Proof.
  intros Hh1 Hsin. unfold parsear_tabla_incendios. rewrite Hh1.
  rewrite buscar_tabla_find, find_None; [reflexivity|].
  intros t Ht. unfold tablas_siguientes in Ht.
  apply filter_In in Ht as [Hin Htc]. apply andb_prop in Htc as [Htag Hclass].
  now apply Hsin.
Qed.

Lemma sin_tabla_ValueError_witness :
  @parsear_tabla_incendios unicode_14 MasPaginas.listado_sin_tabla
  = Raise (ValueError msg_sin_tabla).
Proof.
  eapply (@sin_tabla_ValueError unicode_14 MasPaginas.listado_sin_tabla).
  - vm_compute. reflexivity.
  - intros t Ht Htag Hclass. vm_compute in Ht.
    repeat (destruct Ht as [<-|Ht];
            [first [discriminate Htag|discriminate Hclass|vm_compute; reflexivity]|]).
    contradiction.
Defined.

(** X6.  A list returned by [parsear_tabla_incendios] comes from the first
    table of class [tabla] after the heading that has both header texts:
    the heading is there, the tables before the chosen one lack a header
    text, the chosen one has a [tbody], and the list holds the dictionaries
    of the rows of twelve cells or more of that [tbody], in their order. *)
Theorem parsear_tabla_incendios_Ok `{UnicodeData} (soup : Soup.node) (filas : list fila) :
  parsear_tabla_incendios soup = Ok filas ->
  exists h1 siguientes antes tabla_incendios despues tbody,
    buscar_h1 soup = Some (h1, siguientes)
    /\ tablas_siguientes siguientes = antes ++ tabla_incendios :: despues
    /\ (forall t, In t antes -> encabezados_fecha_region t = false)
    /\ encabezados_fecha_region tabla_incendios = true
    /\ Soup.find (lit "tbody") tabla_incendios = Some tbody
    /\ Forall2 (fun tr f => fila_de_tds (Soup.find_all (lit "td") tr) = Ok f)
               (List.filter fila_completa (Soup.find_all (lit "tr") tbody)) filas.
Proof.
  unfold parsear_tabla_incendios. intros Hok.
  destruct (buscar_h1 soup) as [[h1 siguientes]|] eqn:Hh1; [|discriminate Hok].
  destruct (buscar_tabla (tablas_siguientes siguientes)) as [t|] eqn:Ht; [|discriminate Hok].
  destruct (Soup.find (lit "tbody") t) as [tbody|] eqn:Hb; [|discriminate Hok].
  rewrite buscar_tabla_find in Ht.
  destruct (find_primero _ _ _ Ht) as (antes & despues & Hl & Henc & Hantes).
  exists h1, siguientes, antes, t, despues, tbody.
  repeat split; try assumption. now apply filas_de_tbody_Ok.
Qed.

Lemma parsear_tabla_incendios_Ok_witness :
  exists h1 siguientes antes tabla_incendios despues tbody,
    buscar_h1 Pagina.listado = Some (h1, siguientes)
    /\ tablas_siguientes siguientes = antes ++ tabla_incendios :: despues
    /\ (forall t, In t antes -> encabezados_fecha_region t = false)
    /\ encabezados_fecha_region tabla_incendios = true
    /\ Soup.find (lit "tbody") tabla_incendios = Some tbody
    /\ Forall2 (fun tr f => @fila_de_tds unicode_14 (Soup.find_all (lit "td") tr) = Ok f)
               (List.filter fila_completa (Soup.find_all (lit "tr") tbody))
               [Pagina.fila_ejemplo].
Proof.
  apply (@parsear_tabla_incendios_Ok unicode_14 Pagina.listado).
  vm_compute. reflexivity.
Defined.

(** ** More on the blocks of the detail page *)

Lemma for_each_invariante {A S : Type} (body : A -> S -> result S) (P : S -> Prop) :
  (forall x s s', body x s = Ok s' -> P s -> P s') ->
  forall l s s', for_each body l s = Ok s' -> P s -> P s'.
Proof.
  intros Hbody l. induction l as [|x l IH]; intros s s' Hfor Hs.
  - now injection Hfor as <-.
  - simpl in Hfor. destruct (body x s) as [s1|e] eqn:Hx; [|discriminate Hfor].
    cbn [bind] in Hfor. apply (IH _ _ Hfor). now apply (Hbody x s).
Qed.

Lemma bloque_invariante `{UnicodeData} (marca : pystr)
      (cuerpo : Soup.node -> gmap pystr value -> result (gmap pystr value))
      (P : gmap pystr value -> Prop) (soup : Soup.node) (datos datos' : gmap pystr value) :
  (forall x d d', cuerpo x d = Ok d' -> P d -> P d') ->
  bloque marca cuerpo soup datos = Ok datos' -> P datos -> P datos'.
Proof.
  intros Hcuerpo. unfold bloque. intros Hb Hd.
  repeat case_match; try discriminate Hb; try (now injection Hb as <-).
  now apply (for_each_invariante cuerpo P Hcuerpo _ _ _ Hb).
Qed.

Lemma sin_comunes (l l' : list pystr) :
  forallb (fun k => negb (existsb (Str.eqb k) l')) l = true ->
  forall k, In k l -> In k l' -> False.
Proof.
  intros Hb k Hl Hl'. rewrite forallb_forall in Hb. specialize (Hb k Hl).
  apply negb_true_iff in Hb. apply not_true_iff_false in Hb. apply Hb.
  apply existsb_exists. exists k. split; [exact Hl'|].
  unfold Str.eqb. now apply bool_decide_eq_true.
Qed.

Lemma claves_fuera_del_listado (k : pystr) :
  In k (claves_coordenadas ++ claves_condiciones) -> In k columnas_listado -> False.
Proof. apply sin_comunes. vm_compute. reflexivity. Qed.

Lemma parsear_ficha_incendio_claves `{UnicodeData} (soup : Soup.node)
      (datos : gmap pystr value) (k : pystr) :
  parsear_ficha_incendio soup = Ok datos ->
  is_Some (datos !! k) ->
  In k (claves_coordenadas ++ claves_condiciones).
Proof.
  unfold parsear_ficha_incendio, bloque_coordenadas, bloque_condiciones.
  intros Hp Hk.
  destruct (bloque Coordenadas_operativas fila_coordenadas soup ∅) as [d1|e] eqn:H1;
    [|discriminate Hp].
  cbn [bind] in Hp.
  destruct (List.in_dec (fun x y : pystr => decide (x = y)) k
                        (claves_coordenadas ++ claves_condiciones))
    as [Hin|Hout]; [exact Hin|exfalso].
  rewrite (bloque_fuera _ _ claves_condiciones _ _ _ fila_condiciones_fuera Hp k) in Hk
    by (intros Hc; apply Hout, in_or_app; now right).
  rewrite (bloque_fuera _ _ claves_coordenadas _ _ _ fila_coordenadas_fuera H1 k) in Hk
    by (intros Hc; apply Hout, in_or_app; now left).
  rewrite lookup_empty in Hk. now destruct Hk.
Qed.

(** The columns of a row of [pd.DataFrame(filas)] are the thirteen keys. *)
Lemma serie_de_fila_columnas (f : fila) (k : pystr) :
  is_Some (Scraper.serie_de_fila f !! k) <-> In k columnas_listado.
Proof.
  split.
  - intros [c Hc]. unfold Scraper.serie_de_fila in Hc.
    apply elem_of_list_to_map_2 in Hc.
    repeat (apply elem_of_cons in Hc as [Hc|Hc];
            [injection Hc as -> _; vm_compute; tauto|]).
    now apply elem_of_nil in Hc.
  - intros Hk. vm_compute in Hk.
    repeat (destruct Hk as [<-|Hk]; [vm_compute; eauto|]).
    destruct Hk.
Qed.

(** X7.  Every key of the dictionary [parsear_ficha_incendio] returns is
    one of the six keys of the coordinates or of the ten values of [mapeo],
    and none of them is a key of the dictionaries of [filas], that is, a
    column of a row of [pd.DataFrame(filas)]: merging the dictionary into a
    row sets no column of the listing. *)
Theorem claves_de_la_ficha `{UnicodeData} (soup : Soup.node) (datos : gmap pystr value)
        (k : pystr) :
  parsear_ficha_incendio soup = Ok datos ->
  is_Some (datos !! k) ->
  In k (claves_coordenadas ++ claves_condiciones)
  /\ ~ In k columnas_listado
  /\ forall f, Scraper.serie_de_fila f !! k = None.
Proof.
  intros Hp Hk.
  pose proof (parsear_ficha_incendio_claves soup datos k Hp Hk) as Hin.
  assert (~ In k columnas_listado) as Hout
      by (intros Hl; exact (claves_fuera_del_listado k Hin Hl)).
  split; [exact Hin|]. split; [exact Hout|].
  intros f. apply eq_None_not_Some. intros Hf. now apply Hout, (serie_de_fila_columnas f).
Qed.

Lemma claves_de_la_ficha_witness :
  exists datos,
    @parsear_ficha_incendio unicode_14 (Pagina.ficha "linkMapa(this, -33.45, -70.66)")
    = Ok datos
    /\ is_Some (datos !! lit "lat_operativa")
    /\ In (lit "lat_operativa") (claves_coordenadas ++ claves_condiciones)
    /\ ~ In (lit "lat_operativa") columnas_listado
    /\ forall f, Scraper.serie_de_fila f !! lit "lat_operativa" = None.
Proof.
  assert (match @parsear_ficha_incendio unicode_14
                  (Pagina.ficha "linkMapa(this, -33.45, -70.66)") with
          | Ok datos => bool_decide (is_Some (datos !! lit "lat_operativa"))
          | Raise _ => false
          end = true) as Hb by (vm_compute; reflexivity).
  destruct (@parsear_ficha_incendio unicode_14
              (Pagina.ficha "linkMapa(this, -33.45, -70.66)")) as [datos|e] eqn:Hp;
    [|discriminate Hb].
  apply bool_decide_eq_true in Hb.
  exists datos. split; [reflexivity|]. split; [exact Hb|].
  exact (@claves_de_la_ficha unicode_14 _ datos (lit "lat_operativa") Hp Hb).
Defined.

Ltac buscar_clave :=
  repeat first
    [ rewrite lookup_insert_ne
        by (let E := fresh in intros E; vm_compute in E; discriminate E)
    | rewrite lookup_insert_eq ].

Lemma fila_coordenadas_pares `{UnicodeData} (tr : Soup.node) (d d' : gmap pystr value) :
  fila_coordenadas tr d = Ok d' -> coordenadas_en_pares d -> coordenadas_en_pares d'.
Proof.
  unfold fila_coordenadas. intros Hf Hd.
  destruct (length (Soup.find_all (lit "td") tr) <? 4)%nat; [now injection Hf as <-|].
  do 4 bind_inv Hf.
  unfold coordenadas_en_pares, presente in *.
  repeat case_match; injection Hf as <-; try exact Hd;
    buscar_clave; intuition eauto.
Qed.

Lemma fila_condiciones_pares `{UnicodeData} (tr : Soup.node) (d d' : gmap pystr value) :
  fila_condiciones tr d = Ok d' -> coordenadas_en_pares d -> coordenadas_en_pares d'.
Proof.
  intros Hf. unfold coordenadas_en_pares, presente.
  assert (forall k, In (lit k) claves_coordenadas -> d' !! lit k = d !! lit k) as Hk.
  { intros k Hin. apply (fila_condiciones_fuera _ _ _ Hf).
    intros Hm. exact (claves_disjuntas _ Hin Hm). }
  rewrite !Hk by (simpl; tauto). tauto.
Qed.

(** X8.  In the dictionary [parsear_ficha_incendio] returns the coordinates
    come in pairs: [utm_operativas] with [utm_investigadas],
    [geo_operativas] with [geo_investigadas], [lat_operativa] with
    [lon_operativa], and the latitude and longitude only beside the
    geographic pair. *)
Theorem coordenadas_de_la_ficha_en_pares `{UnicodeData} (soup : Soup.node)
        (datos : gmap pystr value) :
  parsear_ficha_incendio soup = Ok datos -> coordenadas_en_pares datos.
Proof.
  unfold parsear_ficha_incendio, bloque_coordenadas, bloque_condiciones.
  intros Hp.
  destruct (bloque Coordenadas_operativas fila_coordenadas soup ∅) as [d1|e] eqn:H1;
    [|discriminate Hp].
  cbn [bind] in Hp.
  apply (bloque_invariante _ _ coordenadas_en_pares _ _ _ fila_condiciones_pares Hp).
  apply (bloque_invariante _ _ coordenadas_en_pares _ _ _ fila_coordenadas_pares H1).
  unfold coordenadas_en_pares, presente. rewrite !lookup_empty.
  repeat split; intros [v Hv]; discriminate Hv.
Qed.

Lemma coordenadas_de_la_ficha_en_pares_witness :
  exists datos,
    @parsear_ficha_incendio unicode_14 (Pagina.ficha "linkMapa(this, -33.45, -70.66)")
    = Ok datos
    /\ coordenadas_en_pares datos.
Proof.
  assert (sin_error (@parsear_ficha_incendio unicode_14
                       (Pagina.ficha "linkMapa(this, -33.45, -70.66)")) = true) as Hb
      by (vm_compute; reflexivity).
  destruct (@parsear_ficha_incendio unicode_14
              (Pagina.ficha "linkMapa(this, -33.45, -70.66)")) as [datos|e] eqn:Hp;
    [|discriminate Hb].
  exists datos. split; [reflexivity|].
  exact (@coordenadas_de_la_ficha_en_pares unicode_14 _ datos Hp).
Defined.

Lemma es_numero_condiciones (k : pystr) : In k claves_condiciones -> es_numero k = false.
Proof.
  intros Hk.
  assert (forallb (fun k => negb (es_numero k)) claves_condiciones = true) as Hb
      by (vm_compute; reflexivity).
  rewrite forallb_forall in Hb. now apply negb_true_iff, Hb.
Qed.

Lemma fila_coordenadas_tipos `{UnicodeData} (tr : Soup.node) (d d' : gmap pystr value) :
  fila_coordenadas tr d = Ok d' ->
  map_Forall valor_del_tipo d -> map_Forall valor_del_tipo d'.
Proof.
  unfold fila_coordenadas. intros Hf Hd.
  destruct (length (Soup.find_all (lit "td") tr) <? 4)%nat; [now injection Hf as <-|].
  do 4 bind_inv Hf.
  repeat case_match; injection Hf as <-; try exact Hd;
    repeat (apply map_Forall_insert_2; [reflexivity|]); exact Hd.
Qed.

Lemma fila_condiciones_tipos `{UnicodeData} (tr : Soup.node) (d d' : gmap pystr value) :
  fila_condiciones tr d = Ok d' ->
  map_Forall valor_del_tipo d -> map_Forall valor_del_tipo d'.
Proof.
  unfold fila_condiciones. intros Hf Hd.
  destruct (length (Soup.find_all (lit "td") tr) <? 2)%nat; [now injection Hf as <-|].
  do 2 bind_inv Hf.
  destruct (mapeo !! Soup.get_text [] a) as [clave|] eqn:Hm;
    injection Hf as <-; [|exact Hd].
  apply map_Forall_insert_2; [|exact Hd].
  apply es_numero_condiciones. exact (valor_en_valores mapeo _ _ Hm).
Qed.

(** X9.  In the dictionary [parsear_ficha_incendio] returns, the values
    under [lat_operativa] and [lon_operativa] are [float]s and the values
    under every other key are texts. *)
Theorem tipos_de_la_ficha `{UnicodeData} (soup : Soup.node) (datos : gmap pystr value)
        (k : pystr) (v : value) :
  parsear_ficha_incendio soup = Ok datos ->
  datos !! k = Some v ->
  valor_del_tipo k v.
Proof.
  unfold parsear_ficha_incendio, bloque_coordenadas, bloque_condiciones.
  intros Hp.
  destruct (bloque Coordenadas_operativas fila_coordenadas soup ∅) as [d1|e] eqn:H1;
    [|discriminate Hp].
  cbn [bind] in Hp.
  revert k v. change (map_Forall valor_del_tipo datos).
  apply (bloque_invariante _ _ _ _ _ _ fila_condiciones_tipos Hp).
  apply (bloque_invariante _ _ _ _ _ _ fila_coordenadas_tipos H1).
  apply map_Forall_empty.
Qed.

Lemma tipos_de_la_ficha_witness :
  exists datos v,
    @parsear_ficha_incendio unicode_14 (Pagina.ficha "linkMapa(this, -33.45, -70.66)")
    = Ok datos
    /\ datos !! lit "lat_operativa" = Some v
    /\ valor_del_tipo (lit "lat_operativa") v.
Proof.
  assert (match @parsear_ficha_incendio unicode_14
                  (Pagina.ficha "linkMapa(this, -33.45, -70.66)") with
          | Ok datos => bool_decide (is_Some (datos !! lit "lat_operativa"))
          | Raise _ => false
          end = true) as Hb by (vm_compute; reflexivity).
  destruct (@parsear_ficha_incendio unicode_14
              (Pagina.ficha "linkMapa(this, -33.45, -70.66)")) as [datos|e] eqn:Hp;
    [|discriminate Hb].
  apply bool_decide_eq_true in Hb. destruct Hb as [v Hv].
  exists datos, v. split; [reflexivity|]. split; [exact Hv|].
  exact (@tipos_de_la_ficha unicode_14 _ datos (lit "lat_operativa") v Hp Hv).
Defined.

(** X10.  When the marker cell of a block is found outside of any table,
    [parsear_ficha_incendio] raises the [AttributeError] of [None.find]: at
    once for the coordinates block, and after it has returned for the
    conditions block. *)
Theorem celda_fuera_de_tabla `{UnicodeData} (soup : Soup.node) :
  (forall td,
      Soup.find_element (lit "td") (Soup.truthy_and_contains Coordenadas_operativas) soup
      = Some td ->
      Soup.find_parent (lit "table") td = None ->
      parsear_ficha_incendio soup = Raise (NoneAttributeError (lit "find")))
  /\ (forall datos td,
      bloque_coordenadas soup ∅ = Ok datos ->
      Soup.find_element (lit "td") (Soup.truthy_and_contains CONDICIONES) soup = Some td ->
      Soup.find_parent (lit "table") td = None ->
      parsear_ficha_incendio soup = Raise (NoneAttributeError (lit "find"))).
Proof.
  unfold parsear_ficha_incendio. split.
  - intros td Htd Hp. unfold bloque_coordenadas, bloque. now rewrite Htd, Hp.
  - intros datos td Hd Htd Hp. rewrite Hd. cbn [bind].
    unfold bloque_condiciones, bloque. now rewrite Htd, Hp.
Qed.

Lemma celda_fuera_de_tabla_witness :
  @parsear_ficha_incendio unicode_14 MasPaginas.ficha_sin_tabla
  = Raise (NoneAttributeError (lit "find")).
Proof.
  eapply (proj1 (@celda_fuera_de_tabla unicode_14 MasPaginas.ficha_sin_tabla)).
  - vm_compute. reflexivity.
  - vm_compute. reflexivity.
Defined.

(** ** The names of the columns *)

Lemma dropwhile_Forall (P : char -> Prop) (p : char -> bool) (s : pystr) :
  Forall P s -> Forall P (Str.dropwhile p s).
Proof.
  induction 1 as [|c s Hc Hs IH]; [constructor|].
  simpl. destruct (p c); [exact IH|now constructor].
Qed.

Lemma strip_Forall (P : char -> Prop) (s : pystr) : Forall P s -> Forall P (Str.strip s).
Proof.
  intros Hs. unfold Str.strip, Str.rstrip, Str.lstrip.
  apply Forall_rev, dropwhile_Forall, Forall_rev, dropwhile_Forall, Hs.
Qed.

Lemma filter_ascii (s : pystr) :
  solo_ascii s = true -> List.filter (fun c => (c <=? 127)%N) s = s.
Proof.
  unfold solo_ascii. induction s as [|c s IH]; [reflexivity|].
  cbn [forallb List.filter]. intros Hs. apply andb_prop in Hs as [Hc Hs].
  rewrite Hc. now rewrite IH.
Qed.

Lemma limpiar_columna_ascii (nombre : pystr) : solo_ascii (limpiar_columna nombre) = true.
Proof.
  unfold solo_ascii, limpiar_columna. apply forallb_forall, List.Forall_forall.
  apply (strip_Forall (fun c => (c <=? 127)%N = true)).
  apply List.Forall_forall. intros c Hc. now apply filter_In in Hc as [_ Hc].
Qed.

(** X11.  Cleaning a column name leaves it as it is exactly when the name
    is ASCII and has no blank at its ends; a cleaned name is such a name,
    so cleaning twice is cleaning once. *)
Theorem limpiar_columna_fijo (nombre : pystr) :
  (limpiar_columna nombre = nombre <-> solo_ascii nombre = true /\ recortado nombre = true)
  /\ limpiar_columna (limpiar_columna nombre) = limpiar_columna nombre.
Proof.
  assert (forall s, solo_ascii s = true -> recortado s = true -> limpiar_columna s = s) as Hfijo.
  { intros s Ha Hr. unfold limpiar_columna. rewrite (filter_ascii s Ha).
    now apply recortado_strip. }
  split; [split|].
  - intros Heq. rewrite <- Heq. split; [apply limpiar_columna_ascii|].
    unfold limpiar_columna. apply strip_recortado.
  - intros [Ha Hr]. now apply Hfijo.
  - apply Hfijo; [apply limpiar_columna_ascii|].
    unfold limpiar_columna. apply strip_recortado.
Qed.

(** X12.  Cleaning changes none of the names of the columns the program
    builds: the thirteen keys of the dictionaries of [filas] and every key
    of a dictionary that [parsear_ficha_incendio] returns. *)
Theorem limpiar_columnas_del_programa `{UnicodeData} :
  limpiar_columnas columnas_listado = columnas_listado
  /\ forall soup datos k,
       parsear_ficha_incendio soup = Ok datos -> is_Some (datos !! k) ->
       limpiar_columna k = k.
Proof.
  split; [vm_compute; reflexivity|].
  intros soup datos k Hp Hk.
  pose proof (parsear_ficha_incendio_claves soup datos k Hp Hk) as Hin.
  assert (forallb (fun k => Str.eqb (limpiar_columna k) k)
                  (claves_coordenadas ++ claves_condiciones) = true) as Hb
      by (vm_compute; reflexivity).
  rewrite forallb_forall in Hb. specialize (Hb k Hin).
  unfold Str.eqb in Hb. now apply bool_decide_eq_true in Hb.
Qed.

(** ** The run of [scrapear_incendios_y_fichas] *)

Section Historia.
Import Scraper.
Context `{UnicodeData} (env : entorno).

(** A run only adds to the history. *)
Lemma crece_seguido {A B : Type} (c : M A) (k : A -> M B) :
  (forall h r h', c h = (r, h') -> exists calls, h' = calls ++ h) ->
  (forall a h r h', k a h = (r, h') -> exists calls, h' = calls ++ h) ->
  forall h r h', seguido c k h = (r, h') -> exists calls, h' = calls ++ h.
Proof.
  intros Hc Hk h r h'. unfold seguido.
  destruct (c h) as [[a|e] h1] eqn:Hch; intros Hr.
  - apply Hc in Hch as [calls1 ->]. apply Hk in Hr as [calls2 ->].
    exists (calls2 ++ calls1). now rewrite app_assoc.
  - injection Hr as <- <-. now apply Hc in Hch.
Qed.

Lemma crece_llamar (c : llamada) (h : historia) (r : salida unit) (h' : historia) :
  llamar env c h = (r, h') -> exists calls, h' = calls ++ h.
Proof.
  unfold llamar. destruct (falla env (c :: h)); intros Hr; injection Hr as <- <-;
    now exists [c].
Qed.

Lemma crece_contenido (h : historia) (r : salida Soup.node) (h' : historia) :
  contenido env h = (r, h') -> exists calls, h' = calls ++ h.
Proof.
  unfold contenido. destruct (falla env (Content :: h)); intros Hr; injection Hr as <- <-;
    now exists [Content].
Qed.

Lemma crece_parsear {A : Type} (p : result A) (h : historia) (r : salida A) (h' : historia) :
  parsear p h = (r, h') -> exists calls, h' = calls ++ h.
Proof.
  unfold parsear, ret, raise. destruct p; intros Hr; injection Hr as <- <-; now exists [].
Qed.

Lemma crece_ret {A : Type} (a : A) (h : historia) (r : salida A) (h' : historia) :
  ret a h = (r, h') -> exists calls, h' = calls ++ h.
Proof. unfold ret. intros Hr. injection Hr as <- <-. now exists []. Qed.

Lemma crece_ficha_de_fila (n idx : nat) (url : objeto) (df : dataframe) (h : historia)
      (r : salida dataframe) (h' : historia) :
  ficha_de_fila env n idx url df h = (r, h') -> exists calls, h' = calls ++ h.
Proof.
  unfold ficha_de_fila. destruct (negb (verdadero url)); [apply crece_ret|].
  revert h r h'.
  repeat (apply crece_seguido; [intros ? ? ?|intros ? ? ? ?; cbv beta]);
    first [apply crece_llamar | apply crece_contenido | apply crece_parsear | apply crece_ret].
Qed.

Lemma crece_fichas (n : nat) (urls : list objeto) :
  forall (idx : nat) (df : dataframe) (h : historia) (r : salida dataframe) (h' : historia),
    fichas env n idx urls df h = (r, h') -> exists calls, h' = calls ++ h.
Proof.
  induction urls as [|url urls IH]; intros idx df h r h'; cbn [fichas].
  - apply crece_ret.
  - apply crece_seguido.
    + intros h0 r0 h0'. apply crece_ficha_de_fila.
    + intros df' h0 r0 h0'. apply IH.
Qed.

Lemma scrapear_crece (USUARIO PASSWORD : option pystr) (h : historia)
      (r : salida dataframe) (h' : historia) :
  vacio USUARIO || vacio PASSWORD = false ->
  scrapear_incendios_y_fichas env USUARIO PASSWORD h = (r, h') ->
  exists calls, h' = calls ++ Start :: h.
Proof.
  destruct USUARIO as [[|u U]|], PASSWORD as [[|p P]|]; try discriminate.
  intros _ Hr. unfold scrapear_incendios_y_fichas, con_playwright in Hr.
  unfold seguido at 1 in Hr. unfold llamar at 1 in Hr.
  destruct (falla env (Start :: h)).
  { injection Hr as <- <-. now exists []. }
  match type of Hr with
  | (let (_, _) := ?c (Start :: h) in _) = _ => destruct (c (Start :: h)) as [r0 h1] eqn:Hc
  end.
  assert (exists calls, h1 = calls ++ Start :: h) as [calls ->].
  { clear Hr. revert Hc. generalize (Start :: h). intros h0. revert r0 h1.
    repeat (apply crece_seguido; [intros ? ? ?|intros ? ? ? ?; cbv beta]);
      first [apply crece_llamar | apply crece_contenido | apply crece_parsear
            | apply crece_fichas | apply crece_ret]. }
  unfold llamar in Hr. destruct (falla env (Stop :: calls ++ Start :: h));
    injection Hr as <- <-; now exists (Stop :: calls).
Qed.

(** X13.  Without a user or without a password ([None] or the empty
    text) the function raises its [RuntimeError] and asks nothing of the
    outside; with both, whatever the outside does, the first thing it asks
    is to start playwright. *)
Theorem credenciales_que_faltan (USUARIO PASSWORD : option pystr) (h : historia) :
  if vacio USUARIO || vacio PASSWORD
  then scrapear_incendios_y_fichas env USUARIO PASSWORD h
       = (Error (RuntimeError msg_credenciales), h)
  else exists r calls,
         scrapear_incendios_y_fichas env USUARIO PASSWORD h = (r, calls ++ Start :: h).
Proof.
  destruct (vacio USUARIO || vacio PASSWORD) eqn:Hv.
  - destruct USUARIO as [[|u U]|], PASSWORD as [[|p P]|]; try reflexivity.
    discriminate Hv.
  - destruct (scrapear_incendios_y_fichas env USUARIO PASSWORD h) as [r h'] eqn:Hr.
    destruct (scrapear_crece _ _ _ _ _ Hv Hr) as [calls ->]. now exists r, calls.
Qed.

End Historia.

Section Sitio.
Import Scraper.
Context `{UnicodeData} (nan : bool) (paginas : objeto -> Soup.node).

Lemma actualizar_aqui (pre rest : dataframe) (row : serie) (datos : gmap pystr value) :
  actualizar (length pre) datos (pre ++ row :: rest)
  = pre ++ ((celda_de_valor <$> datos) ∪ row) :: rest.
Proof.
  unfold actualizar. induction pre as [|x pre IH]; [reflexivity|].
  cbn [length app]. cbn [alter list_alter]. f_equal. exact IH.
Qed.

(** One turn of the loop on a site. *)
Lemma ficha_de_fila_sitio (n idx : nat) (url : objeto) (df : dataframe) (h : historia) :
  ficha_de_fila (Entorno.sitio nan paginas) n idx url df h
  = if verdadero url then
      let h' := Content :: Goto url (WaitUntil networkidle)
                  :: Print (lit "Procesando ficha " ++ str_de_nat (idx + 1) ++ lit "/"
                            ++ str_de_nat n ++ lit ": " ++ str_de url) :: h in
      match parsear_ficha_incendio (paginas url) with
      | Ok datos => (Hecho (actualizar idx datos df), h')
      | Raise e => (Error (Exn e), h')
      end
    else (Hecho df, h).
Proof.
  unfold ficha_de_fila. destruct (verdadero url); [|reflexivity].
  cbn [negb]. unfold seguido, llamar, contenido. cbn [falla pagina Entorno.sitio].
  now destruct (parsear_ficha_incendio (paginas url)).
Qed.

Lemma fichas_app (n : nat) (urls1 urls2 : list objeto) :
  forall (idx : nat) (df : dataframe) (h : historia),
    fichas (Entorno.sitio nan paginas) n idx (urls1 ++ urls2) df h
    = seguido (fichas (Entorno.sitio nan paginas) n idx urls1 df)
              (fun df' => fichas (Entorno.sitio nan paginas) n (idx + length urls1) urls2 df') h.
Proof.
  induction urls1 as [|u urls1 IH]; intros idx df h.
  - cbn [app fichas length]. unfold seguido, ret. now rewrite Nat.add_0_r.
  - cbn [app fichas length]. unfold seguido.
    destruct (ficha_de_fila (Entorno.sitio nan paginas) n idx u df h) as [[df'|e] h1];
      [|reflexivity].
    rewrite IH. unfold seguido.
    now replace (idx + S (length urls1))%nat with (S idx + length urls1)%nat by lia.
Qed.

(** The loop on a site, over rows whose detail pages can all be
    parsed. *)
Lemma fichas_sitio (n : nat) (g : fila -> objeto) (filas : list fila) (post : dataframe) :
  (forall f, In f filas -> verdadero (g f) = true ->
             sin_error (parsear_ficha_incendio (paginas (g f))) = true) ->
  forall (pre : dataframe) (h : historia),
  exists rows calls,
    fichas (Entorno.sitio nan paginas) n (length pre) (map g filas)
           (pre ++ map serie_de_fila filas ++ post) h
    = (Hecho (pre ++ rows ++ post), calls ++ h)
    /\ Forall2 (fun f row => fila_enriquecida paginas (g f) f row) filas rows
    /\ Forall de_pagina calls
    /\ omap goto_url calls = rev (List.filter verdadero (map g filas)).
Proof.
  induction filas as [|f filas IH]; intros Hok pre h.
  - exists [], []. cbn [map fichas]. unfold ret. repeat split; constructor.
  - cbn [map fichas app]. unfold seguido. rewrite ficha_de_fila_sitio.
    assert (forall f', In f' filas -> verdadero (g f') = true ->
                       sin_error (parsear_ficha_incendio (paginas (g f'))) = true) as Hok'
        by (intros f' Hin; apply Hok; now right).
    specialize (Hok f (or_introl eq_refl)).
    cbn [List.filter]. unfold fila_enriquecida at 1.
    destruct (verdadero (g f)) eqn:Hv.
    + specialize (Hok eq_refl). cbv zeta.
      destruct (parsear_ficha_incendio (paginas (g f))) as [datos|e] eqn:Hp;
        [|discriminate Hok].
      rewrite actualizar_aqui.
      replace (pre ++ ((celda_de_valor <$> datos) ∪ serie_de_fila f)
                   :: map serie_de_fila filas ++ post)
        with ((pre ++ [(celda_de_valor <$> datos) ∪ serie_de_fila f])
                ++ map serie_de_fila filas ++ post) by now rewrite <- app_assoc.
      replace (S (length pre))
        with (length (pre ++ [(celda_de_valor <$> datos) ∪ serie_de_fila f]))
        by (rewrite length_app; cbn [length]; lia).
      match goal with
      | |- context [fichas _ _ _ _ _ ?h0] =>
          destruct (IH Hok' (pre ++ [(celda_de_valor <$> datos) ∪ serie_de_fila f]) h0)
            as (rows & calls & -> & Hrows & Hcalls & Hg)
      end.
      eexists (_ :: rows), (calls ++ [_; _; _]).
      rewrite <- !app_assoc. split; [reflexivity|]. split; [|split].
      * constructor; [|exact Hrows]. unfold fila_enriquecida. rewrite Hv. now exists datos.
      * apply Forall_app. split; [exact Hcalls|].
        repeat constructor; discriminate.
      * rewrite omap_app, Hg. cbn [omap list_omap goto_url rev]. reflexivity.
    + replace (pre ++ serie_de_fila f :: map serie_de_fila filas ++ post)
        with ((pre ++ [serie_de_fila f]) ++ map serie_de_fila filas ++ post)
        by now rewrite <- app_assoc.
      replace (S (length pre)) with (length (pre ++ [serie_de_fila f]))
        by (rewrite length_app; cbn [length]; lia).
      destruct (IH Hok' (pre ++ [serie_de_fila f]) h) as (rows & calls & -> & Hrows & Hcalls & Hg).
      exists (serie_de_fila f :: rows), calls.
      rewrite <- !app_assoc. split; [reflexivity|]. split; [|split].
      * constructor; [|exact Hrows]. unfold fila_enriquecida. now rewrite Hv.
      * exact Hcalls.
      * exact Hg.
Qed.

(** The calls of the login, the latest first, up to the reading of the
    main page. *)
Lemma scrapear_sitio (u p : char) (U P : pystr) (h : historia) :
  exists acceso,
    Forall de_pagina acceso
    /\ omap goto_url acceso = [PyStr url_principal; PyStr url_login]
    /\ scrapear_incendios_y_fichas (Entorno.sitio nan paginas) (Some (u :: U)) (Some (p :: P)) h
       = match parsear_tabla_incendios (paginas (PyStr url_principal)) with
         | Raise e => (Error (Exn e), Stop :: acceso ++ Start :: h)
         | Ok filas =>
             match fichas (Entorno.sitio nan paginas) (length filas) 0 (map (leer_url_ficha (Entorno.sitio nan paginas) filas) filas)
                          (map serie_de_fila filas) (acceso ++ Start :: h) with
             | (Hecho df, h1) => (Hecho df, Stop :: Close :: h1)
             | (Error e, h1) => (Error e, Stop :: h1)
             end
         end.
Proof.
  exists [ Content; Goto (PyStr url_principal) (WaitUntil networkidle);
           WaitForLoadState networkidle; Click (lit "#div_btn_0-button");
           Fill input_password (p :: P); Fill input_username (u :: U);
           WaitForSelector input_username; WaitForTimeout 3000;
           Goto (PyStr url_login) (Timeout 120000); NewPage; Launch true ].
  split; [repeat constructor; discriminate|]. split; [reflexivity|].
  unfold scrapear_incendios_y_fichas, con_playwright, seguido, llamar, contenido.
  cbn [falla pagina Entorno.sitio app].
  destruct (parsear_tabla_incendios (paginas (PyStr url_principal))) as [filas|e];
    cbn [parsear ret raise]; [|reflexivity].
  match goal with
  | |- context [fichas ?e0 ?n ?i ?us ?d0 ?h0] =>
      destruct (fichas e0 n i us d0 h0) as [[df|e] h1]
  end; reflexivity.
Qed.

Lemma fila_enriquecida_listado (url : objeto) (f : fila) (row : serie) (k : pystr) :
  fila_enriquecida paginas url f row -> In k columnas_listado ->
  row !! k = serie_de_fila f !! k.
Proof.
  unfold fila_enriquecida. intros Hrow Hk.
  destruct (verdadero url); [|now subst row].
  destruct Hrow as (datos & Hp & ->).
  apply lookup_union_r. rewrite lookup_fmap.
  destruct (datos !! k) as [v|] eqn:Hv; [exfalso|reflexivity].
  apply (claves_fuera_del_listado k); [|exact Hk].
  apply (parsear_ficha_incendio_claves (paginas url) datos k Hp). now exists v.
Qed.

(** A run on a site whose pages can all be parsed. *)
Lemma scrapear_sitio_Hecho (USUARIO PASSWORD : option pystr) (h : historia)
      (filas : list fila) :
  vacio USUARIO || vacio PASSWORD = false ->
  parsear_tabla_incendios (paginas (PyStr url_principal)) = Ok filas ->
  (forall f, In f filas -> verdadero (leer_url_ficha (Entorno.sitio nan paginas) filas f) = true ->
     sin_error (parsear_ficha_incendio (paginas (leer_url_ficha (Entorno.sitio nan paginas) filas f))) = true) ->
  exists df h',
    scrapear_incendios_y_fichas (Entorno.sitio nan paginas) USUARIO PASSWORD h = (Hecho df, h')
    /\ Forall2 (fun f row => fila_enriquecida paginas (leer_url_ficha (Entorno.sitio nan paginas) filas f) f row)
               filas df
    /\ visitadas h'
       = visitadas h ++ PyStr url_login :: PyStr url_principal
                     :: List.filter verdadero (map (leer_url_ficha (Entorno.sitio nan paginas) filas) filas).
Proof.
  intros Hcred Hp Hok.
  destruct USUARIO as [[|u U]|], PASSWORD as [[|p P]|]; try discriminate Hcred.
  destruct (scrapear_sitio u p U P h) as (acceso & _ & Ha & Hs). rewrite Hp in Hs.
  destruct (fichas_sitio (length filas) _ filas [] Hok [] (acceso ++ Start :: h))
    as (rows & calls & Hf & Hrows & _ & Hg).
  cbn [length app] in Hf. rewrite !app_nil_r in Hf. rewrite Hf in Hs.
  exists rows, (Stop :: Close :: calls ++ acceso ++ Start :: h).
  split; [exact Hs|]. split; [exact Hrows|].
  unfold visitadas.
  change (Stop :: Close :: calls ++ acceso ++ Start :: h)
    with ([Stop; Close] ++ calls ++ acceso ++ [Start] ++ h).
  rewrite !omap_app, Ha, Hg. cbn [omap list_omap goto_url app].
  rewrite !rev_app_distr, rev_involutive. cbn [rev app].
  now rewrite <- !app_assoc.
Qed.

(** X14.  On a site that answers every call and serves a page by its
    address, with both credentials, a listing that gives [filas] and detail
    pages that can be parsed, the function returns a data frame with one
    row for each dictionary of [filas], in their order: the row of the
    listing itself when what is read back for its [url_ficha] is not true,
    and else that row with the dictionary of the page at that address laid
    over it.  The thirteen columns of the listing hold in every row what
    the listing gave. *)
Theorem filas_enriquecidas (USUARIO PASSWORD : option pystr) (h : historia)
        (filas : list fila) :
  vacio USUARIO || vacio PASSWORD = false ->
  parsear_tabla_incendios (paginas (PyStr url_principal)) = Ok filas ->
  (forall f, In f filas -> verdadero (leer_url_ficha (Entorno.sitio nan paginas) filas f) = true ->
     sin_error (parsear_ficha_incendio (paginas (leer_url_ficha (Entorno.sitio nan paginas) filas f))) = true) ->
  exists df h',
    scrapear_incendios_y_fichas (Entorno.sitio nan paginas) USUARIO PASSWORD h = (Hecho df, h')
    /\ Forall2 (fun f row =>
                  fila_enriquecida paginas (leer_url_ficha (Entorno.sitio nan paginas) filas f) f row
                  /\ forall k, In k columnas_listado -> row !! k = serie_de_fila f !! k)
               filas df.
Proof.
  intros Hcred Hp Hok.
  destruct (scrapear_sitio_Hecho _ _ h _ Hcred Hp Hok) as (df & h' & Hr & Hrows & _).
  exists df, h'. split; [exact Hr|].
  eapply Forall2_impl; [exact Hrows|].
  intros f row Hrow. split; [exact Hrow|].
  intros k Hk. now apply (fila_enriquecida_listado _ _ _ _ Hrow).
Qed.

(** X15.  On such a site and under the same conditions, the pages the
    function goes to are, in this order: the login page, the main page, and
    for every row of the listing what is read back for its [url_ficha],
    when that is true, each once, in the order of the rows. *)
Theorem fichas_visitadas (USUARIO PASSWORD : option pystr) (h : historia)
        (filas : list fila) :
  vacio USUARIO || vacio PASSWORD = false ->
  parsear_tabla_incendios (paginas (PyStr url_principal)) = Ok filas ->
  (forall f, In f filas -> verdadero (leer_url_ficha (Entorno.sitio nan paginas) filas f) = true ->
     sin_error (parsear_ficha_incendio (paginas (leer_url_ficha (Entorno.sitio nan paginas) filas f))) = true) ->
  exists df h',
    scrapear_incendios_y_fichas (Entorno.sitio nan paginas) USUARIO PASSWORD h = (Hecho df, h')
    /\ visitadas h'
       = visitadas h ++ PyStr url_login :: PyStr url_principal
                     :: List.filter verdadero (map (leer_url_ficha (Entorno.sitio nan paginas) filas) filas).
Proof.
  intros Hcred Hp Hok.
  destruct (scrapear_sitio_Hecho _ _ h _ Hcred Hp Hok) as (df & h' & Hr & _ & Hv).
  now exists df, h'.
Qed.

(** X16.  On such a site, when the listing gives [antes], [f] and
    [despues], the pages of [antes] can be parsed and the page of [f]
    makes [parsear_ficha_incendio] raise, the function raises that
    exception and returns no data frame: after the login and the main page
    it has gone to the pages of [antes] and to that of [f], to none of
    [despues], and [browser.close()] was not called. *)
Theorem ficha_ilegible_aborta (USUARIO PASSWORD : option pystr) (h : historia)
        (antes despues : list fila) (f : fila) (e : exn) :
  let filas := antes ++ f :: despues in
  vacio USUARIO || vacio PASSWORD = false ->
  parsear_tabla_incendios (paginas (PyStr url_principal)) = Ok filas ->
  (forall f', In f' antes -> verdadero (leer_url_ficha (Entorno.sitio nan paginas) filas f') = true ->
     sin_error (parsear_ficha_incendio (paginas (leer_url_ficha (Entorno.sitio nan paginas) filas f'))) = true) ->
  verdadero (leer_url_ficha (Entorno.sitio nan paginas) filas f) = true ->
  parsear_ficha_incendio (paginas (leer_url_ficha (Entorno.sitio nan paginas) filas f)) = Raise e ->
  exists calls,
    scrapear_incendios_y_fichas (Entorno.sitio nan paginas) USUARIO PASSWORD h
    = (Error (Exn e), Stop :: calls ++ Start :: h)
    /\ ~ In Close calls
    /\ visitadas calls
       = PyStr url_login :: PyStr url_principal
         :: List.filter verdadero (map (leer_url_ficha (Entorno.sitio nan paginas) filas) antes)
         ++ [leer_url_ficha (Entorno.sitio nan paginas) filas f].
Proof.
  intros filas Hcred Hp Hantes Hv He.
  destruct USUARIO as [[|u U]|], PASSWORD as [[|p P]|]; try discriminate Hcred.
  destruct (scrapear_sitio u p U P h) as (acceso & Hacc & Ha & Hs). rewrite Hp in Hs.
  unfold filas at 3 4 in Hs. rewrite !map_app, fichas_app in Hs. unfold seguido in Hs.
  destruct (fichas_sitio (length filas) _ antes (map serie_de_fila (f :: despues))
                         Hantes [] (acceso ++ Start :: h))
    as (rows & calls & Hf & _ & Hcalls & Hg).
  cbn [length app] in Hf. rewrite Hf in Hs.
  cbn [map fichas] in Hs. unfold seguido in Hs.
  rewrite ficha_de_fila_sitio, Hv in Hs. cbv zeta in Hs. rewrite He in Hs.
  rewrite (app_assoc calls acceso) in Hs.
  eexists (_ :: _ :: _ :: calls ++ acceso).
  split; [exact Hs|]. split.
  - intros Hin. cbn [In] in Hin.
    destruct Hin as [Hin|[Hin|[Hin|Hin]]]; try discriminate Hin.
    apply in_app_or in Hin as [Hin|Hin].
    + rewrite List.Forall_forall in Hcalls. now destruct (Hcalls _ Hin) as [Hc _].
    + rewrite List.Forall_forall in Hacc. now destruct (Hacc _ Hin) as [Hc _].
  - unfold visitadas.
    match goal with
    | |- context [omap goto_url (?a :: ?b :: ?c :: calls ++ acceso)] =>
        change (a :: b :: c :: calls ++ acceso) with ([a; b; c] ++ calls ++ acceso)
    end.
    rewrite !omap_app, Ha, Hg. cbn [omap list_omap goto_url app].
    cbn [rev]. rewrite rev_app_distr, rev_involutive. cbn [rev app].
    reflexivity.
Qed.

End Sitio.

Lemma paginas_ejemplo_sin_error (u : Scraper.objeto) :
  sin_error (@parsear_ficha_incendio unicode_14
               (Entorno.paginas_ejemplo (Pagina.ficha "linkMapa(this, -33.45, -70.66)") u))
  = true.
Proof.
  destruct u as [| |s]; unfold Entorno.paginas_ejemplo;
    [vm_compute; reflexivity..|].
  destruct (Str.eqb s Scraper.url_principal); vm_compute; reflexivity.
Qed.

Lemma filas_enriquecidas_witness :
  exists filas df h',
    length filas = 2%nat
    /\ @Scraper.scrapear_incendios_y_fichas unicode_14
         (Entorno.sitio true
            (Entorno.paginas_ejemplo (Pagina.ficha "linkMapa(this, -33.45, -70.66)")))
         (Some (lit "usuario")) (Some (lit "clave")) [] = (Scraper.Hecho df, h')
    /\ Forall2 (fun f row =>
         @fila_enriquecida unicode_14
           (Entorno.paginas_ejemplo (Pagina.ficha "linkMapa(this, -33.45, -70.66)"))
           (Scraper.leer_url_ficha
              (Entorno.sitio true
                 (Entorno.paginas_ejemplo (Pagina.ficha "linkMapa(this, -33.45, -70.66)")))
              filas f) f row
         /\ forall k, In k columnas_listado -> row !! k = Scraper.serie_de_fila f !! k)
       filas df.
Proof.
  assert (match @parsear_tabla_incendios unicode_14 MasPaginas.listado_dos_filas with
          | Ok filas => (length filas =? 2)%nat
          | Raise _ => false
          end = true) as Hb by (vm_compute; reflexivity).
  destruct (@parsear_tabla_incendios unicode_14 MasPaginas.listado_dos_filas)
    as [filas|e] eqn:Hp; [|discriminate Hb].
  apply Nat.eqb_eq in Hb.
  destruct (@filas_enriquecidas unicode_14 true
              (Entorno.paginas_ejemplo (Pagina.ficha "linkMapa(this, -33.45, -70.66)"))
              (Some (lit "usuario")) (Some (lit "clave")) [] filas)
    as (df & h' & Hr & Hrows).
  - reflexivity.
  - exact Hp.
  - intros f _ _. apply paginas_ejemplo_sin_error.
  - exists filas, df, h'. split; [exact Hb|]. split; [exact Hr|exact Hrows].
Defined.

Lemma fichas_visitadas_witness :
  exists filas df h',
    length filas = 2%nat
    /\ @Scraper.scrapear_incendios_y_fichas unicode_14
         (Entorno.sitio true
            (Entorno.paginas_ejemplo (Pagina.ficha "linkMapa(this, -33.45, -70.66)")))
         (Some (lit "usuario")) (Some (lit "clave")) [] = (Scraper.Hecho df, h')
    /\ visitadas h'
       = visitadas [] ++ Scraper.PyStr Scraper.url_login :: Scraper.PyStr Scraper.url_principal
           :: List.filter Scraper.verdadero
                (map (Scraper.leer_url_ficha
                        (Entorno.sitio true
                           (Entorno.paginas_ejemplo
                              (Pagina.ficha "linkMapa(this, -33.45, -70.66)")))
                        filas) filas).
Proof.
  assert (match @parsear_tabla_incendios unicode_14 MasPaginas.listado_dos_filas with
          | Ok filas => (length filas =? 2)%nat
          | Raise _ => false
          end = true) as Hb by (vm_compute; reflexivity).
  destruct (@parsear_tabla_incendios unicode_14 MasPaginas.listado_dos_filas)
    as [filas|e] eqn:Hp; [|discriminate Hb].
  apply Nat.eqb_eq in Hb.
  destruct (@fichas_visitadas unicode_14 true
              (Entorno.paginas_ejemplo (Pagina.ficha "linkMapa(this, -33.45, -70.66)"))
              (Some (lit "usuario")) (Some (lit "clave")) [] filas)
    as (df & h' & Hr & Hv).
  - reflexivity.
  - exact Hp.
  - intros f _ _. apply paginas_ejemplo_sin_error.
  - exists filas, df, h'. split; [exact Hb|]. split; [exact Hr|exact Hv].
Defined.

Lemma ficha_ilegible_aborta_witness :
  exists calls,
    @Scraper.scrapear_incendios_y_fichas unicode_14
      (Entorno.sitio true (Entorno.paginas_ejemplo MasPaginas.ficha_sin_tabla))
      (Some (lit "usuario")) (Some (lit "clave")) []
    = (Scraper.Error (Scraper.Exn (NoneAttributeError (lit "find"))),
       Scraper.Stop :: calls ++ [Scraper.Start])
    /\ ~ In Scraper.Close calls
    /\ visitadas calls
       = [Scraper.PyStr Scraper.url_login; Scraper.PyStr Scraper.url_principal;
          Scraper.PyStr (lit "https://sidco.conaf.cl/ficha/1")].
Proof.
  assert (match @parsear_tabla_incendios unicode_14 MasPaginas.listado_dos_filas with
          | Ok [f; f'] => bool_decide (url_ficha f = Some (lit "https://sidco.conaf.cl/ficha/1"))
          | _ => false
          end = true) as Hb by (vm_compute; reflexivity).
  destruct (@parsear_tabla_incendios unicode_14 MasPaginas.listado_dos_filas)
    as [[|f [|f' [|f'' filas]]]|e] eqn:Hp; try discriminate Hb.
  apply bool_decide_eq_true in Hb.
  destruct (@ficha_ilegible_aborta unicode_14 true
              (Entorno.paginas_ejemplo MasPaginas.ficha_sin_tabla)
              (Some (lit "usuario")) (Some (lit "clave")) [] [] [f'] f
              (NoneAttributeError (lit "find")))
    as (calls & Hr & Hclose & Hv).
  - reflexivity.
  - exact Hp.
  - intros f0 [].
  - unfold Scraper.leer_url_ficha. rewrite Hb. reflexivity.
  - unfold Scraper.leer_url_ficha. rewrite Hb. vm_compute. reflexivity.
  - exists calls. split; [exact Hr|]. split; [exact Hclose|].
    rewrite Hv. unfold Scraper.leer_url_ficha. rewrite Hb. reflexivity.
Defined.

(** ** What the pattern finds *)

Lemma star_matches {R : Type} (p : char -> bool) (s : pystr) :
  forall (g : Re.groups) (k : pystr -> Re.groups -> option R) (x : R),
    Re.star p s g k = Some x ->
    exists w s', s = w ++ s' /\ forallb p w = true /\ k s' g = Some x.
Proof.
  induction s as [|c s IH]; intros g k x Hs; cbn [Re.star] in Hs.
  - exists [], []. now repeat split.
  - destruct (p c) eqn:Hc.
    + destruct (Re.star p s g k) as [y|] eqn:Hy.
      * injection Hs as ->. apply IH in Hy as (w & s' & -> & Hw & Hk).
        exists (c :: w), s'. cbn [forallb app]. rewrite Hc, Hw. now repeat split.
      * exists [], (c :: s). now repeat split.
    + exists [], (c :: s). now repeat split.
Qed.

Lemma run_matches {R : Type} (r : Re.regex) :
  forall (s : pystr) (g : Re.groups) (k : pystr -> Re.groups -> option R) (x : R),
    Re.run r s g k = Some x ->
    exists w s' g1, s = w ++ s' /\ matches r w g1 /\ k s' (g1 ++ g) = Some x.
Proof.
  induction r as [|p|r1 IH1 r2 IH2|r1 IH1 r2 IH2|p|i r IH]; intros s g k x Hr;
    cbn [Re.run] in Hr.
  - exists [], s, []. repeat split; [constructor|exact Hr].
  - destruct s as [|c s]; [discriminate Hr|]. destruct (p c) eqn:Hc; [|discriminate Hr].
    exists [c], s, []. repeat split; [now constructor|exact Hr].
  - apply IH1 in Hr as (w1 & s1 & g1 & -> & H1 & Hr).
    apply IH2 in Hr as (w2 & s2 & g2 & -> & H2 & Hr).
    exists (w1 ++ w2), s2, (g2 ++ g1). rewrite <- !app_assoc.
    repeat split; [now constructor|exact Hr].
  - destruct (Re.run r1 s g k) as [y|] eqn:Hy.
    + injection Hr as ->. apply IH1 in Hy as (w & s' & g1 & -> & H1 & Hk).
      exists w, s', g1. repeat split; [now apply matches_Alt_l|exact Hk].
    + apply IH2 in Hr as (w & s' & g1 & -> & H2 & Hk).
      exists w, s', g1. repeat split; [now apply matches_Alt_r|exact Hk].
  - apply star_matches in Hr as (w & s' & -> & Hw & Hk).
    exists w, s', []. repeat split; [now constructor|exact Hk].
  - apply IH in Hr as (w & s' & g1 & -> & H1 & Hk).
    exists w, s', ((i, w) :: g1). repeat split; [now constructor|].
    rewrite length_app in Hk.
    replace (length w + length s' - length s')%nat with (length w) in Hk by lia.
    rewrite take_app_length in Hk. exact Hk.
Qed.

Lemma search_matches (r : Re.regex) (s : pystr) (m : Re.groups) :
  Re.search r s = Some m ->
  exists antes w despues, s = antes ++ w ++ despues /\ matches r w m.
Proof.
  induction s as [|c s IH]; cbn [Re.search]; unfold Re.match_.
  - destruct (Re.run r [] [] _) as [[g rest]|] eqn:Hr; [|discriminate].
    intros Hm. injection Hm as ->.
    apply run_matches in Hr as (w & s' & g1 & Hs & Hw & Hk).
    injection Hk as <- <-. rewrite app_nil_r. exists [], w, s'. now split.
  - destruct (Re.run r (c :: s) [] _) as [[g rest]|] eqn:Hr.
    + intros Hm. injection Hm as ->.
      apply run_matches in Hr as (w & s' & g1 & Hs & Hw & Hk).
      injection Hk as <- <-. rewrite app_nil_r. exists [], w, s'. now split.
    + intros Hm. apply IH in Hm as (antes & w & despues & -> & Hw).
      exists (c :: antes), w, despues. now split.
Qed.

Lemma matches_Seq_inv (r1 r2 : Re.regex) (w : pystr) (g : Re.groups) :
  matches (Re.Seq r1 r2) w g ->
  exists w1 w2 g1 g2,
    w = w1 ++ w2 /\ g = g2 ++ g1 /\ matches r1 w1 g1 /\ matches r2 w2 g2.
Proof. intros Hm. inversion Hm; subst. now eexists _, _, _, _. Qed.

Lemma matches_Chr_inv (c : char) (w : pystr) (g : Re.groups) :
  matches (Re.Chr (Re.exactly c)) w g -> w = [c] /\ g = [].
Proof.
  intros Hm. inversion Hm as [|p c' Hc| | | | |]; subst.
  unfold Re.exactly in Hc. apply N.eqb_eq in Hc. now subst c'.
Qed.

Lemma matches_Star_inv (p : char -> bool) (w : pystr) (g : Re.groups) :
  matches (Re.Star p) w g -> forallb p w = true /\ g = [].
Proof. intros Hm. now inversion Hm. Qed.

Lemma matches_Plus (p : char -> bool) (w : pystr) (g : Re.groups) :
  matches (Re.Plus p) w g -> g = [] /\ w <> [] /\ forallb p w = true.
Proof.
  unfold Re.Plus. intros Hm.
  apply matches_Seq_inv in Hm as (w1 & w2 & g1 & g2 & -> & -> & H1 & H2).
  apply matches_Star_inv in H2 as [Hw ->].
  inversion H1 as [|p' c Hc| | | | |]; subst.
  repeat split; [discriminate|]. cbn [app forallb]. now rewrite Hc, Hw.
Qed.

Lemma matches_Group_Plus (i : nat) (p : char -> bool) (w : pystr) (g : Re.groups) :
  matches (Re.Group i (Re.Plus p)) w g ->
  g = [(i, w)] /\ w <> [] /\ forallb p w = true.
Proof.
  intros Hm. inversion Hm as [| | | | | |i' r w' g' Hp]; subst.
  apply matches_Plus in Hp as (-> & Hne & Hw). now repeat split.
Qed.

Lemma matches_Lit (s w : pystr) (g : Re.groups) :
  matches (Re.Lit s) w g -> w = s /\ g = [].
Proof.
  revert w g. induction s as [|c s IH]; intros w g Hm; cbn [Re.Lit] in Hm.
  - now inversion Hm.
  - apply matches_Seq_inv in Hm as (w1 & w2 & g1 & g2 & -> & -> & H1 & H2).
    apply IH in H2 as [-> ->]. now apply matches_Chr_inv in H1 as [-> ->].
Qed.

Lemma matches_linkMapa (w : pystr) (m : Re.groups) :
  matches linkMapa_re w m ->
  exists ws1 g1 ws2 g2,
    w = lit "linkMapa(this," ++ ws1 ++ g1 ++ [44%N] ++ ws2 ++ g2 ++ [41%N]
    /\ m = [(2%nat, g2); (1%nat, g1)]
    /\ forallb Str.isspace ws1 = true /\ forallb Str.isspace ws2 = true
    /\ numero_crudo g1 /\ numero_crudo g2.
Proof.
  unfold linkMapa_re. cbn [Re.Seqs]. intros Hm.
  apply matches_Seq_inv in Hm as (w0 & x0 & m0 & n0 & -> & -> & H0 & Hm).
  apply matches_Lit in H0 as [-> ->].
  apply matches_Seq_inv in Hm as (ws1 & x1 & m1 & n1 & -> & -> & H1 & Hm).
  apply matches_Star_inv in H1 as [Hws1 ->].
  apply matches_Seq_inv in Hm as (g1 & x2 & m2 & n2 & -> & -> & H2 & Hm).
  apply matches_Group_Plus in H2 as (-> & Hne1 & Hg1).
  apply matches_Seq_inv in Hm as (w3 & x3 & m3 & n3 & -> & -> & H3 & Hm).
  apply matches_Chr_inv in H3 as [-> ->].
  apply matches_Seq_inv in Hm as (ws2 & x4 & m4 & n4 & -> & -> & H4 & Hm).
  apply matches_Star_inv in H4 as [Hws2 ->].
  apply matches_Seq_inv in Hm as (g2 & x5 & m5 & n5 & -> & -> & H5 & Hm).
  apply matches_Group_Plus in H5 as (-> & Hne2 & Hg2).
  apply matches_Chr_inv in Hm as [-> ->].
  exists ws1, g1, ws2, g2. repeat split; assumption.
Qed.

Lemma search_linkMapa (onclick : pystr) (m : Re.groups) :
  Re.search linkMapa_re onclick = Some m ->
  exists g1 g2, con_linkMapa onclick g1 g2 /\ m = [(2%nat, g2); (1%nat, g1)].
Proof.
  intros Hs.
  apply search_matches in Hs as (antes & w & despues & -> & Hw).
  apply matches_linkMapa in Hw as (ws1 & g1 & ws2 & g2 & -> & -> & Hws1 & Hws2 & Hg1 & Hg2).
  exists g1, g2. split; [|reflexivity].
  exists antes, ws1, ws2, despues. rewrite <- !app_assoc.
  split; [reflexivity|]. split; [exact Hws1|]. split; [exact Hws2|]. now split.
Qed.

(** X17.  [lat] and [lon] stay [None] when the pattern is not found.  When
    it is found, [onclick] holds [linkMapa(this,], blanks, a run of digits,
    [-] and [.], a comma, blanks, a second such run and [)], and [lat] and
    [lon] are what [float] makes of the two runs, or the [ValueError] of
    [float]: the step gives both numbers or none, and no group is ever
    missing. *)
Theorem lat_lon_de_onclick_casos `{UnicodeData} (onclick : pystr) :
  lat_lon_de_onclick onclick = Ok (None, None)
  \/ exists g1 g2,
       con_linkMapa onclick g1 g2
       /\ lat_lon_de_onclick onclick
          = (let! lat := Float.float_ g1 in
             let! lon := Float.float_ g2 in
             Ok (Some lat, Some lon)).
Proof.
  unfold lat_lon_de_onclick.
  destruct (Re.search linkMapa_re onclick) as [m|] eqn:Hs; [right|now left].
  apply search_linkMapa in Hs as (g1 & g2 & Hc & ->).
  exists g1, g2. split; [exact Hc|reflexivity].
Qed.

(** ** The exceptions of the two parsers *)

Lemma float_Raise `{UnicodeData} (s : pystr) (e : exn) :
  Float.float_ s = Raise e -> e = FloatValueError s.
Proof.
  unfold Float.float_.
  destruct (_ ≫= _) as [f|]; [discriminate|]. intros He. now injection He as <-.
Qed.

Lemma lat_lon_de_onclick_Raise `{UnicodeData} (onclick : pystr) (e : exn) :
  lat_lon_de_onclick onclick = Raise e ->
  exists g, e = FloatValueError g /\ numero_crudo g.
Proof.
  unfold lat_lon_de_onclick.
  destruct (Re.search linkMapa_re onclick) as [m|] eqn:Hs; [|discriminate].
  apply search_linkMapa in Hs as (g1 & g2 & (antes & ws1 & ws2 & despues & _ & _ & _ & Hg1 & Hg2) & ->).
  change (Re.group 1 [(2%nat, g2); (1%nat, g1)]) with (Some g1).
  change (Re.group 2 [(2%nat, g2); (1%nat, g1)]) with (Some g2).
  cbv beta iota.
  destruct (Float.float_ g1) as [lat|e1] eqn:H1; cbn [bind].
  - destruct (Float.float_ g2) as [lon|e2] eqn:H2; cbn [bind]; [discriminate|].
    intros He. injection He as <-. apply float_Raise in H2 as ->. now exists g2.
  - intros He. injection He as <-. apply float_Raise in H1 as ->. now exists g1.
Qed.

Lemma for_each_Raise {A S : Type} (body : A -> S -> result S) (e : exn) :
  forall (l : list A) (s : S),
    for_each body l s = Raise e -> exists x s0, In x l /\ body x s0 = Raise e.
Proof.
  induction l as [|x l IH]; intros s Hl; cbn [for_each] in Hl; [discriminate Hl|].
  destruct (body x s) as [s'|e'] eqn:Hx; cbn [bind] in Hl.
  - apply IH in Hl as (y & s0 & Hy & Hb). exists y, s0. split; [now right|exact Hb].
  - injection Hl as ->. exists x, s. split; [now left|exact Hx].
Qed.

(** A turn of the loop over the conditions never raises. *)
Lemma fila_condiciones_Ok `{UnicodeData} (tr : Soup.node) (datos : gmap pystr value) :
  exists datos', fila_condiciones tr datos = Ok datos'.
Proof.
  unfold fila_condiciones.
  destruct (length (Soup.find_all (lit "td") tr) <? 2)%nat eqn:Hlen; [now eexists|].
  apply Nat.ltb_ge in Hlen.
  destruct (item_lt (Soup.find_all (lit "td") tr) 0) as [c0 ->]; [lia|].
  destruct (item_lt (Soup.find_all (lit "td") tr) 1) as [c1 ->]; [lia|].
  cbn [bind]. destruct (mapeo !! _); now eexists.
Qed.

(** A turn of the loop over the coordinates raises nothing but what
    [float] raises on a group of the pattern. *)
Lemma fila_coordenadas_Raise `{UnicodeData} (tr : Soup.node) (datos : gmap pystr value)
      (e : exn) :
  fila_coordenadas tr datos = Raise e ->
  exists g, e = FloatValueError g /\ numero_crudo g.
Proof.
  unfold fila_coordenadas.
  destruct (length (Soup.find_all (lit "td") tr) <? 4)%nat eqn:Hlen; [discriminate|].
  apply Nat.ltb_ge in Hlen.
  destruct (item_lt (Soup.find_all (lit "td") tr) 0) as [c0 ->]; [lia|].
  destruct (item_lt (Soup.find_all (lit "td") tr) 1) as [c1 ->]; [lia|].
  destruct (item_lt (Soup.find_all (lit "td") tr) 3) as [c3 ->]; [lia|].
  cbn [bind].
  destruct (lat_lon c1) as [[lat lon]|e'] eqn:Hll; cbn [bind].
  - destruct (Str.contains Coordenadas_UTM _); [discriminate|].
    destruct (Str.contains Coordenadas_geograficas _); [|discriminate].
    destruct lat, lon; discriminate.
  - intros He. injection He as <-. unfold lat_lon in Hll.
    destruct (Soup.find (lit "a") c1); [|discriminate Hll].
    now apply lat_lon_de_onclick_Raise in Hll.
Qed.

Lemma bloque_Raise `{UnicodeData} (marca : pystr)
      (cuerpo : Soup.node -> gmap pystr value -> result (gmap pystr value))
      (soup : Soup.node) (datos : gmap pystr value) (e : exn) :
  bloque marca cuerpo soup datos = Raise e ->
  e = NoneAttributeError (lit "find")
  \/ exists tr d, cuerpo tr d = Raise e.
Proof.
  unfold bloque.
  destruct (Soup.find_element _ _ soup) as [td|]; [|discriminate].
  destruct (Soup.find_parent _ td) as [tabla|]; [|intros He; injection He as <-; now left].
  destruct (Soup.find _ tabla) as [tbody|]; [|discriminate].
  intros He. apply for_each_Raise in He as (tr & d & _ & He). right. now exists tr, d.
Qed.

(** X18.  [parsear_ficha_incendio] raises nothing but the [AttributeError]
    of a marker cell outside of any table and the [ValueError] of [float]
    on a group of the pattern, a run of digits, [-] and [.]: the cells of a
    row are counted before they are read, so no [IndexError], and the rows
    of the conditions raise nothing. *)
Theorem excepciones_de_la_ficha `{UnicodeData} (soup : Soup.node) (e : exn) :
  parsear_ficha_incendio soup = Raise e ->
  e = NoneAttributeError (lit "find")
  \/ exists g, e = FloatValueError g /\ numero_crudo g.
Proof.
  unfold parsear_ficha_incendio, bloque_coordenadas, bloque_condiciones.
  destruct (bloque Coordenadas_operativas fila_coordenadas soup ∅) as [d1|e1] eqn:H1;
    cbn [bind]; intros He.
  - apply bloque_Raise in He as [->|(tr & d & He)]; [now left|].
    destruct (fila_condiciones_Ok tr d) as [d' Hd]. congruence.
  - injection He as <-.
    apply bloque_Raise in H1 as [->|(tr & d & H1)]; [now left|right].
    now apply fila_coordenadas_Raise in H1.
Qed.

Lemma excepciones_de_la_ficha_witness :
  exists e,
    @parsear_ficha_incendio unicode_14 (Pagina.ficha "linkMapa(this, -, -)") = Raise e
    /\ (e = NoneAttributeError (lit "find")
        \/ exists g, e = FloatValueError g /\ numero_crudo g).
Proof.
  assert (@parsear_ficha_incendio unicode_14 (Pagina.ficha "linkMapa(this, -, -)")
          = Raise (FloatValueError (lit "-"))) as Hp by (vm_compute; reflexivity).
  exists (FloatValueError (lit "-")). split; [exact Hp|].
  exact (@excepciones_de_la_ficha unicode_14 _ _ Hp).
Defined.

(** X19.  [parsear_tabla_incendios] raises nothing but its three
    [ValueError]s (no heading, no table, no [tbody]) and the [ValueError]
    of [float] on the area text of a row of twelve cells or more: no
    [IndexError], and nothing from the date. *)
Theorem excepciones_del_listado `{UnicodeData} (soup : Soup.node) (e : exn) :
  parsear_tabla_incendios soup = Raise e ->
  e = ValueError msg_sin_titulo
  \/ e = ValueError msg_sin_tabla
  \/ e = ValueError msg_sin_tbody
  \/ exists tr texto,
       fila_completa tr = true
       /\ superficie_txt_de_tr tr = Some texto
       /\ e = FloatValueError texto.
Proof.
  unfold parsear_tabla_incendios.
  destruct (buscar_h1 soup) as [[h1 siguientes]|];
    [|intros He; injection He as <-; now left].
  destruct (buscar_tabla _) as [tabla_incendios|];
    [|intros He; injection He as <-; right; now left].
  destruct (Soup.find _ tabla_incendios) as [tbody|];
    [|intros He; injection He as <-; right; right; now left].
  unfold filas_de_tbody. intros He. right. right. right.
  apply for_each_Raise in He as (tr & filas & _ & He).
  exists tr.
  pose proof (fila_de_tr_cases tr filas) as Hc.
  destruct (fila_completa tr) eqn:Hk; [|congruence].
  destruct (superficie_de_tr tr) as [v|e'] eqn:Hs.
  { destruct Hc as (f & _ & Hc). congruence. }
  destruct Hc as [Hc _]. assert (e' = e) as -> by congruence. clear Hc He.
  unfold superficie_de_tr, item in Hs. unfold superficie_txt_de_tr.
  destruct (Soup.find_all (lit "td") tr !! 7%nat) as [td7|] eqn:H7.
  - cbn [bind] in Hs. cbn [mbind option_bind]. eexists. split; [reflexivity|].
    split; [reflexivity|].
    unfold superficie_de_texto in Hs.
    destruct (Str.replace _ _ _) as [|c t]; [discriminate Hs|].
    destruct (Float.float_ (c :: t)) as [x|e'] eqn:Hf; [discriminate Hs|].
    cbn [bind] in Hs. injection Hs as <-. now apply float_Raise in Hf.
  - exfalso. unfold fila_completa in Hk. apply Nat.leb_le in Hk.
    apply lookup_ge_None in H7. lia.
Qed.

Lemma excepciones_del_listado_witness :
  exists e,
    @parsear_tabla_incendios unicode_14 Pagina.listado_sin_informacion = Raise e
    /\ (e = ValueError msg_sin_titulo
        \/ e = ValueError msg_sin_tabla
        \/ e = ValueError msg_sin_tbody
        \/ exists tr texto,
             fila_completa tr = true
             /\ superficie_txt_de_tr tr = Some texto
             /\ e = FloatValueError texto).
Proof.
  assert (@parsear_tabla_incendios unicode_14 Pagina.listado_sin_informacion
          = Raise (FloatValueError (lit "s/i"))) as Hp by (vm_compute; reflexivity).
  exists (FloatValueError (lit "s/i")). split; [exact Hp|].
  exact (@excepciones_del_listado unicode_14 _ _ Hp).
Defined.

(** ** The rows of the conditions *)

Lemma for_each_app {A S : Type} (body : A -> S -> result S) (l1 l2 : list A) (s : S) :
  for_each body (l1 ++ l2) s = (let! s' := for_each body l1 s in for_each body l2 s').
Proof.
  revert s. induction l1 as [|x l1 IH]; intros s; [reflexivity|].
  cbn [app for_each]. destruct (body x s) as [s'|e]; cbn [bind]; [apply IH|reflexivity].
Qed.

Lemma fila_condiciones_condicion `{UnicodeData} (tr : Soup.node) (datos : gmap pystr value) :
  fila_condiciones tr datos
  = Ok (match condicion_de tr with
        | Some (clave, valor) => <[clave := VStr valor]> datos
        | None => datos
        end).
Proof.
  unfold fila_condiciones, condicion_de.
  destruct (length (Soup.find_all (lit "td") tr) <? 2)%nat eqn:Hlen; [reflexivity|].
  apply Nat.ltb_ge in Hlen. unfold item.
  destruct (lookup_lt_is_Some_2 (Soup.find_all (lit "td") tr) 0) as [c0 ->]; [lia|].
  destruct (lookup_lt_is_Some_2 (Soup.find_all (lit "td") tr) 1) as [c1 ->]; [lia|].
  cbn [bind mbind option_bind]. now destruct (mapeo !! _).
Qed.

Lemma for_each_condiciones_otras `{UnicodeData} (k : pystr) (trs : list Soup.node) :
  (forall tr, In tr trs -> fst <$> condicion_de tr <> Some k) ->
  forall d d', for_each fila_condiciones trs d = Ok d' -> d' !! k = d !! k.
Proof.
  induction trs as [|tr trs IH]; intros Hk d d' Hd; cbn [for_each] in Hd.
  - now injection Hd as <-.
  - rewrite fila_condiciones_condicion in Hd. cbn [bind] in Hd.
    rewrite (IH (fun tr' Hin => Hk tr' (or_intror Hin)) _ _ Hd).
    specialize (Hk tr (or_introl eq_refl)).
    destruct (condicion_de tr) as [[k' v']|]; [|reflexivity].
    apply lookup_insert_ne. intros ->. now apply Hk.
Qed.

(** X20.  The text [parsear_ficha_incendio] returns under a key of the
    conditions is that of the last row labelled for it: when the rows of
    the [tbody] are [pre], [tr] and [post], [tr] sets the key and no row of
    [post] does, the key holds the text of the second cell of [tr]. *)
Theorem ultima_condicion `{UnicodeData} (soup tabla tbody tr : Soup.node)
        (td : Soup.element) (pre post : list Soup.node) (datos : gmap pystr value)
        (clave valor : pystr) :
  parsear_ficha_incendio soup = Ok datos ->
  Soup.find_element (lit "td") (Soup.truthy_and_contains CONDICIONES) soup = Some td ->
  Soup.find_parent (lit "table") td = Some tabla ->
  Soup.find (lit "tbody") tabla = Some tbody ->
  Soup.find_all (lit "tr") tbody = pre ++ tr :: post ->
  condicion_de tr = Some (clave, valor) ->
  (forall tr', In tr' post -> fst <$> condicion_de tr' <> Some clave) ->
  datos !! clave = Some (VStr valor).
Proof.
  unfold parsear_ficha_incendio, bloque_condiciones.
  intros Hp Htd Htabla Htbody Htrs Htr Hpost.
  destruct (bloque_coordenadas soup ∅) as [d1|e]; [|discriminate Hp].
  cbn [bind] in Hp. unfold bloque in Hp.
  rewrite Htd, Htabla, Htbody, Htrs, for_each_app in Hp.
  destruct (for_each fila_condiciones pre d1) as [d2|e]; [|discriminate Hp].
  cbn [bind for_each] in Hp.
  rewrite fila_condiciones_condicion, Htr in Hp. cbn [bind] in Hp.
  rewrite (for_each_condiciones_otras clave post Hpost _ _ Hp).
  apply lookup_insert_eq.
Qed.

Lemma ultima_condicion_witness :
  exists datos,
    @parsear_ficha_incendio unicode_14 MasFichas.ficha_repetida = Ok datos
    /\ datos !! lit "meteo_temperatura" = Some (VStr (lit "31")).
Proof.
  assert (sin_error (@parsear_ficha_incendio unicode_14 MasFichas.ficha_repetida) = true)
    as Hb by (vm_compute; reflexivity).
  destruct (@parsear_ficha_incendio unicode_14 MasFichas.ficha_repetida) as [datos|e] eqn:Hp;
    [|discriminate Hb].
  exists datos. split; [reflexivity|].
  eapply (@ultima_condicion unicode_14 MasFichas.ficha_repetida _ _ MasFichas.temperatura_2 _
            [MasFichas.marca_condiciones; MasFichas.temperatura_1] [MasFichas.nubosidad]
            datos _ _ Hp).
  - vm_compute. reflexivity.
  - vm_compute. reflexivity.
  - vm_compute. reflexivity.
  - vm_compute. reflexivity.
  - vm_compute. reflexivity.
  - intros tr' [<-|[]]. vm_compute. discriminate.
Defined.
